(** * The deCONZ pairing flow (homeassistant/components/deconz/config_flow.py)

    A shallow embedding of [get_master_gateway] and of the config flow handler
    [DeconzFlowHandler]: the handler's attributes are a record, each step is a
    function in a state-and-exception monad over the handler and the world
    (the stored config entries and the log of calls made to the bridge), and
    the outcome of every call to the bridge is an input of the step. *)

From Stdlib Require Import Ascii String List ZArith Bool Lia.
Import ListNotations.
Open Scope string_scope.
Open Scope list_scope.

(** ** Constants of the module *)

Definition CONF_MANUAL_INPUT : string := "Manually define gateway".

(** ** get_master_gateway *)

Module Gateway.
Section Registry.

(** [DeconzGateway] is declared in [.gateway]; the function reads only its
    [master] property. *)
Variable DeconzGateway : Type.
Variable master : DeconzGateway -> bool.

Inductive Raises := ValueError.

(** [hass.data[DOMAIN]] is a dict from config entry id to gateway: its
    items in iteration (insertion) order. *)
Definition registry : Type := list (string * DeconzGateway).

Definition values (data : registry) : list DeconzGateway := map snd data.

(** The [for] loop of the function over the values that are left. *)
Fixpoint first_master (gateways : list DeconzGateway) : DeconzGateway + Raises :=
  match gateways with
  | [] => inr ValueError
  | gateway :: rest => if master gateway then inl gateway else first_master rest
  end.

Definition get_master_gateway (data : registry) : DeconzGateway + Raises :=
  first_master (values data).

End Registry.

Arguments registry DeconzGateway : clear implicits.
Arguments values {DeconzGateway} data.
Arguments first_master {DeconzGateway} master gateways.
Arguments get_master_gateway {DeconzGateway} master data.

End Gateway.

(** ** Data of the config flow *)

(** [config_entries.SOURCE_*]: what started a flow, and what created an entry. *)
Inductive Source := SOURCE_USER | SOURCE_SSDP | SOURCE_HASSIO | SOURCE_REAUTH.

Definition source_eqb (a b : Source) : bool :=
  match a, b with
  | SOURCE_USER, SOURCE_USER | SOURCE_SSDP, SOURCE_SSDP
  | SOURCE_HASSIO, SOURCE_HASSIO | SOURCE_REAUTH, SOURCE_REAUTH => true
  | _, _ => false
  end.

(** [pydeconz.utils.DiscoveredBridge]: a dict with the keys id, host, port. *)
Record DiscoveredBridge := {
  br_id : string;
  br_host : string;
  br_port : Z
}.

(** The [data] of a config entry: the keys CONF_HOST, CONF_PORT, CONF_API_KEY. *)
Record ConfData := {
  conf_host : string;
  conf_port : Z;
  conf_api_key : string
}.

(** The [updates] dict given to [_abort_if_unique_id_configured]: a key that
    is absent is [None]. *)
Record ConfUpdates := {
  upd_host : option string;
  upd_port : option Z;
  upd_api_key : option string
}.

(** [{**entry.data, **updates}] *)
Definition merge_updates (data : ConfData) (updates : ConfUpdates) : ConfData :=
  {| conf_host := match upd_host updates with Some h => h | None => conf_host data end;
     conf_port := match upd_port updates with Some p => p | None => conf_port data end;
     conf_api_key :=
       match upd_api_key updates with Some k => k | None => conf_api_key data end |}.

Record ConfigEntry := {
  entry_unique_id : option string;
  entry_source : Source;
  entry_title : string;
  entry_data : ConfData
}.

(** [ssdp.SsdpServiceInfo], as far as the flow reads it: the serial of the
    UPnP description, and host name and port of the parsed [ssdp_location]
    (the two [cast]s of the source are taken at their word). *)
Record SsdpServiceInfo := {
  upnp_serial : string;
  location_hostname : string;
  location_port : Z
}.

(** [HassioServiceInfo.config]: the keys serial, host, port, api_key, addon. *)
Record HassioConfig := {
  hassio_serial : string;
  hassio_host : string;
  hassio_port : Z;
  hassio_api_key : string;
  hassio_addon : string
}.

Inductive ConfigurationUrl :=
| BridgeUrl (h : string) (p : Z)     (* f"http://{self.host}:{self.port}" *)
| HASSIO_CONFIGURATION_URL.

(** [self.context] of the flow. *)
Record FlowContext := {
  source : Source;
  unique_id : option string;
  title_placeholders : option (string * string);
  configuration_url : option ConfigurationUrl
}.

(** The attributes of a [DeconzFlowHandler]. Only [bridge_id] is assigned by
    [__init__]; an attribute that has not been assigned yet is [None], and
    reading it raises AttributeError. *)
Record DeconzFlowHandler := {
  bridge_id : string;
  bridges : option (list DiscoveredBridge);
  host : option string;
  port : option Z;
  api_key : option string;
  _hassio_discovery : option HassioConfig;
  context : FlowContext
}.

Definition __init__ (ctx : FlowContext) : DeconzFlowHandler :=
  {| bridge_id := EmptyString; bridges := None; host := None; port := None;
     api_key := None; _hassio_discovery := None; context := ctx |}.

Definition start_context (src : Source) : FlowContext :=
  {| source := src; unique_id := None; title_placeholders := None;
     configuration_url := None |}.

(** Assignments to one attribute. *)
Definition with_bridge_id (v : string) (f : DeconzFlowHandler) :=
  {| bridge_id := v; bridges := bridges f; host := host f; port := port f;
     api_key := api_key f; _hassio_discovery := _hassio_discovery f;
     context := context f |}.
Definition with_bridges (v : list DiscoveredBridge) (f : DeconzFlowHandler) :=
  {| bridge_id := bridge_id f; bridges := Some v; host := host f; port := port f;
     api_key := api_key f; _hassio_discovery := _hassio_discovery f;
     context := context f |}.
Definition with_host (v : string) (f : DeconzFlowHandler) :=
  {| bridge_id := bridge_id f; bridges := bridges f; host := Some v; port := port f;
     api_key := api_key f; _hassio_discovery := _hassio_discovery f;
     context := context f |}.
Definition with_port (v : Z) (f : DeconzFlowHandler) :=
  {| bridge_id := bridge_id f; bridges := bridges f; host := host f; port := Some v;
     api_key := api_key f; _hassio_discovery := _hassio_discovery f;
     context := context f |}.
Definition with_api_key (v : string) (f : DeconzFlowHandler) :=
  {| bridge_id := bridge_id f; bridges := bridges f; host := host f; port := port f;
     api_key := Some v; _hassio_discovery := _hassio_discovery f;
     context := context f |}.
Definition with_hassio_discovery (v : HassioConfig) (f : DeconzFlowHandler) :=
  {| bridge_id := bridge_id f; bridges := bridges f; host := host f; port := port f;
     api_key := api_key f; _hassio_discovery := Some v; context := context f |}.
Definition with_context (g : FlowContext -> FlowContext) (f : DeconzFlowHandler) :=
  {| bridge_id := bridge_id f; bridges := bridges f; host := host f; port := port f;
     api_key := api_key f; _hassio_discovery := _hassio_discovery f;
     context := g (context f) |}.

Definition ctx_unique_id (v : option string) (c : FlowContext) :=
  {| source := source c; unique_id := v;
     title_placeholders := title_placeholders c;
     configuration_url := configuration_url c |}.
Definition ctx_title_placeholders (v : string * string) (c : FlowContext) :=
  {| source := source c; unique_id := unique_id c;
     title_placeholders := Some v; configuration_url := configuration_url c |}.
Definition ctx_configuration_url (v : ConfigurationUrl) (c : FlowContext) :=
  {| source := source c; unique_id := unique_id c;
     title_placeholders := title_placeholders c; configuration_url := Some v |}.

(** ** The world outside the handler *)

(** The calls a step makes to the bridge or to the discovery service. *)
Inductive Call :=
| deconz_discovery
| get_api_key (h : string) (p : Z)
| deconz_get_bridge_id (h : string) (p : Z) (k : string).

(** [config_entries]: the entries of this domain, in the order the store
    iterates them; [calls]: the calls made so far, the first one first. *)
Record World := {
  config_entries : list ConfigEntry;
  calls : list Call
}.

Definition with_entries (es : list ConfigEntry) (w : World) :=
  {| config_entries := es; calls := calls w |}.
Definition with_call (c : Call) (w : World) :=
  {| config_entries := config_entries w; calls := calls w ++ [c] |}.

(** What each awaited call does under its [async_timeout.timeout(10)], as the
    [except] clauses around it tell the cases apart (the functions themselves
    are pydeconz's): the outcome is an input of the step that makes the call.
    The discovery also raises the library's RequestError, when the discovery
    service cannot be reached; the [except] clause of the user step does not
    name it. *)
Inductive DiscoveryOutcome :=
| DiscoveryOk (found : list DiscoveredBridge)
| DiscoveryTimeout
| DiscoveryResponseError
| DiscoveryRequestError.

Inductive ApiKeyOutcome :=
| ApiKeyOk (key : string)
| ApiKeyLinkButtonNotPressed
| ApiKeyResponseError
| ApiKeyRequestError
| ApiKeyTimeout.

Inductive BridgeIdOutcome :=
| BridgeIdOk (id : string)
| BridgeIdTimeout.

Record Env := {
  discovery_outcome : DiscoveryOutcome;
  get_api_key_outcome : ApiKeyOutcome;
  get_bridge_id_outcome : BridgeIdOutcome
}.

(** ** Results and the monad of the steps *)

Inductive FlowResult :=
| FORM (step_id : string) (hosts : list string) (errors : list (string * string))
       (description_placeholders : list (string * string))
| CREATE_ENTRY (title : string) (data : ConfData)
| ABORT (reason : string).

Inductive Exn :=
| AttributeError (attribute : string)
| KeyError (key : string)
| AbortFlow (reason : string)
| RequestError.

Inductive Outcome (A : Type) :=
| Returned (a : A)
| Raised (e : Exn).
Arguments Returned {A} a.
Arguments Raised {A} e.

(** A step reads and assigns the handler's attributes and the world; what it
    assigned before raising stays assigned. *)
Definition Flow (A : Type) : Type :=
  DeconzFlowHandler -> World -> Outcome A * DeconzFlowHandler * World.

Definition ret {A} (a : A) : Flow A := fun f w => (Returned a, f, w).
Definition raise {A} (e : Exn) : Flow A := fun f w => (Raised e, f, w).
Definition bind {A B} (m : Flow A) (k : A -> Flow B) : Flow B :=
  fun f w =>
    match m f w with
    | (Returned a, f', w') => k a f' w'
    | (Raised e, f', w') => (Raised e, f', w')
    end.

Notation "x <- m ;; k" := (bind m (fun x => k))
  (at level 61, m at next level, right associativity).
Notation "m ;; k" := (bind m (fun _ => k))
  (at level 61, right associativity).

Definition assign (g : DeconzFlowHandler -> DeconzFlowHandler) : Flow unit :=
  fun f w => (Returned tt, g f, w).
Definition read {A} (attr : DeconzFlowHandler -> A) : Flow A :=
  fun f w => (Returned (attr f), f, w).
Definition read_assigned {A} (name : string) (attr : DeconzFlowHandler -> option A)
  : Flow A :=
  fun f w =>
    match attr f with
    | Some v => (Returned v, f, w)
    | None => (Raised (AttributeError name), f, w)
    end.
Definition await (c : Call) : Flow unit :=
  fun f w => (Returned tt, f, with_call c w).

Definition self_host : Flow string := read_assigned "host" host.
Definition self_port : Flow Z := read_assigned "port" port.
Definition self_api_key : Flow string := read_assigned "api_key" api_key.
Definition self_bridges : Flow (list DiscoveredBridge) :=
  read_assigned "bridges" bridges.

Definition async_show_form (step_id : string) (hosts : list string)
    (errors description_placeholders : list (string * string)) : FlowResult :=
  FORM step_id hosts errors description_placeholders.
Definition async_create_entry (title : string) (data : ConfData) : FlowResult :=
  CREATE_ENTRY title data.
Definition async_abort (reason : string) : FlowResult := ABORT reason.

(** ** The registration ledger *)

Definition unique_id_is (uid : string) (entry : ConfigEntry) : bool :=
  match entry_unique_id entry with
  | Some u => String.eqb u uid
  | None => false
  end.

(** Modelled from the spec: [ConfigFlow.async_set_unique_id] of
    homeassistant/config_entries.py is missing from the sources. Section 4.5:
    "Look up existing record by canonical identity"; section 6: the store
    "supports lookup-by-id". The flow is given the identity as its unique id,
    and the record stored under it, if there is one, is returned. *)
Definition async_set_unique_id (uid : string) : Flow (option ConfigEntry) :=
  fun f w =>
    (Returned (find (unique_id_is uid) (config_entries w)),
     with_context (ctx_unique_id (Some uid)) f, w).

(** Modelled from the spec: the store's [async_update_entry] of
    homeassistant/config_entries.py is missing from the sources. Section 6:
    the store supports "in-place field update"; section 4.5: the record of
    the identity has its fields updated in place. The first record stored
    under [uid] gets [{**entry.data, **updates}] as its data and keeps all
    else; [None] when there is no such record. *)
Fixpoint async_update_entry (uid : string) (updates : ConfUpdates)
    (entries : list ConfigEntry) : option (list ConfigEntry) :=
  match entries with
  | [] => None
  | entry :: rest =>
      if unique_id_is uid entry
      then Some ({| entry_unique_id := entry_unique_id entry;
                    entry_source := entry_source entry;
                    entry_title := entry_title entry;
                    entry_data := merge_updates (entry_data entry) updates |}
                 :: rest)
      else option_map (cons entry) (async_update_entry uid updates rest)
    end.

(** Modelled from the spec: [ConfigFlow._abort_if_unique_id_configured] of
    homeassistant/config_entries.py is missing from the sources. Section 4.5:
    "if a record exists, update its host/port/credential in place and signal
    duplicate-abort to the state machine"; the abort reason is the
    [already_configured] of section 6. A flow without a unique id has no
    record to look for. *)
Definition _abort_if_unique_id_configured (updates : ConfUpdates) : Flow unit :=
  fun f w =>
    match unique_id (context f) with
    | None => (Returned tt, f, w)
    | Some uid =>
        match async_update_entry uid updates (config_entries w) with
        | Some entries =>
            (Raised (AbortFlow "already_configured"), f, with_entries entries w)
        | None => (Returned tt, f, w)
        end
    end.

(** Modelled from the spec: the flow manager's [async_finish_flow] of
    homeassistant/config_entries.py is missing from the sources. Section 4.5:
    "If no record exists, create it"; section 3: "at most one BridgeRecord per
    canonical identity at any time". A create-entry result is stored as a
    record under the unique id of the flow, in the place of a record that is
    stored under this same unique id; a flow that was never given a unique id
    stores a record without one, and an abort or a form stores nothing. *)
Definition async_finish_flow (f : DeconzFlowHandler) (result : FlowResult)
    (w : World) : World :=
  match result with
  | CREATE_ENTRY title data =>
      let others :=
        match unique_id (context f) with
        | Some uid => filter (fun e => negb (unique_id_is uid e)) (config_entries w)
        | None => config_entries w
        end in
      with_entries
        (others ++ [{| entry_unique_id := unique_id (context f);
                       entry_source := source (context f);
                       entry_title := title;
                       entry_data := data |}]) w
  | FORM _ _ _ _ | ABORT _ => w
  end.

(** ** The steps of DeconzFlowHandler *)

(** [not self.bridge_id] *)
Definition is_empty (s : string) : bool :=
  match s with EmptyString => true | String _ _ => false end.

(** The tail of [_create_entry]: [return self.async_create_entry(...)]. *)
Definition create_entry_result : Flow FlowResult :=
  title <- read bridge_id ;;
  h <- self_host ;;
  p <- self_port ;;
  k <- self_api_key ;;
  ret (async_create_entry title
         {| conf_host := h; conf_port := p; conf_api_key := k |}).

Definition _create_entry (env : Env) : Flow FlowResult :=
  current <- read bridge_id ;;
  if is_empty current then
    h <- self_host ;;
    p <- self_port ;;
    k <- self_api_key ;;
    await (deconz_get_bridge_id h p k) ;;
    match get_bridge_id_outcome env with
    | BridgeIdTimeout => ret (async_abort "no_bridges")
    | BridgeIdOk id =>
        assign (with_bridge_id id) ;;
        uid <- read bridge_id ;;
        async_set_unique_id uid ;;
        h <- self_host ;;
        p <- self_port ;;
        k <- self_api_key ;;
        _abort_if_unique_id_configured
          {| upd_host := Some h; upd_port := Some p; upd_api_key := Some k |} ;;
        create_entry_result
    end
  else create_entry_result.

(** [user_input] of the link step: the form has no fields, the step only
    tests [user_input is not None]. *)
Definition async_step_link (user_input : option unit) (env : Env)
  : Flow FlowResult :=
  h <- self_host ;;                        (* LOGGER.debug(..., self.host, self.port) *)
  p <- self_port ;;
  match user_input with
  | Some _ =>
      h <- self_host ;;                    (* DeconzSession(session, self.host, self.port) *)
      p <- self_port ;;
      await (get_api_key h p) ;;
      match get_api_key_outcome env with
      | ApiKeyLinkButtonNotPressed =>
          ret (async_show_form "link" [] [("base", "linking_not_possible")] [])
      | ApiKeyResponseError | ApiKeyRequestError | ApiKeyTimeout =>
          ret (async_show_form "link" [] [("base", "no_key")] [])
      | ApiKeyOk key =>
          assign (with_api_key key) ;;
          _create_entry env
      end
  | None => ret (async_show_form "link" [] [] [])
  end.

(** [user_input] of the manual step: the schema requires both keys, so a
    submitted dict is never empty and [if user_input:] tests for [None]. *)
Record ManualInput := {
  manual_host : string;
  manual_port : Z
}.

Definition async_step_manual_input (user_input : option ManualInput) (env : Env)
  : Flow FlowResult :=
  match user_input with
  | Some input =>
      assign (with_host (manual_host input)) ;;
      assign (with_port (manual_port input)) ;;
      async_step_link None env
  | None => ret (async_show_form "manual_input" [] [] [])
  end.

(** Lines 101 to 125 of the source: the discovery and the form it leads to. *)
Definition discover_bridges (env : Env) : Flow FlowResult :=
  await deconz_discovery ;;
  match discovery_outcome env with
  | DiscoveryOk found => assign (with_bridges found)
  | DiscoveryTimeout | DiscoveryResponseError => assign (with_bridges [])
  | DiscoveryRequestError => raise RequestError
  end ;;
  found <- self_bridges ;;
  match found with
  | _ :: _ =>
      ret (async_show_form "user" (map br_host found ++ [CONF_MANUAL_INPUT]) [] [])
  | [] => async_step_manual_input None env
  end.

(** [user_input] of the user step: the schema's one key CONF_HOST is
    optional, so a submitted dict is [Some None] without it and
    [Some (Some h)] with it. *)
Definition async_step_user (user_input : option (option string)) (env : Env)
  : Flow FlowResult :=
  match user_input with
  | Some input =>
      match input with
      | None => raise (KeyError "host")
      | Some chosen =>
          if String.eqb chosen CONF_MANUAL_INPUT
          then async_step_manual_input None env
          else
            known <- self_bridges ;;
            match find (fun bridge => String.eqb (br_host bridge) chosen) known with
            | Some bridge =>
                assign (with_bridge_id (br_id bridge)) ;;
                assign (with_host (br_host bridge)) ;;
                assign (with_port (br_port bridge)) ;;
                async_step_link None env
            | None => discover_bridges env
            end
      end
  | None => discover_bridges env
  end.

Definition async_step_reauth (entry_data : ConfData) (env : Env)
  : Flow FlowResult :=
  assign (with_context (ctx_title_placeholders ("host", conf_host entry_data))) ;;
  assign (with_host (conf_host entry_data)) ;;
  assign (with_port (conf_port entry_data)) ;;
  async_step_link None env.

Definition async_step_hassio_confirm (user_input : option unit) (env : Env)
  : Flow FlowResult :=
  match user_input with
  | Some _ => _create_entry env
  | None =>
      config <- read_assigned "_hassio_discovery" _hassio_discovery ;;
      ret (async_show_form "hassio_confirm" [] [] [("addon", hassio_addon config)])
  end.

Section Announcements.

(** [pydeconz.utils.normalize_bridge_id]: a function from string to string
    of the library, any such function here. *)
Variable normalize_bridge_id : string -> string.

Definition async_step_ssdp (discovery_info : SsdpServiceInfo) (env : Env)
  : Flow FlowResult :=
  assign (with_bridge_id (normalize_bridge_id (upnp_serial discovery_info))) ;;
  uid <- read bridge_id ;;
  entry <- async_set_unique_id uid ;;
  if match entry with
     | Some found => source_eqb (entry_source found) SOURCE_HASSIO
     | None => false
     end
  then ret (async_abort "already_configured")
  else
    assign (with_host (location_hostname discovery_info)) ;;
    assign (with_port (location_port discovery_info)) ;;
    h <- self_host ;;
    p <- self_port ;;
    _abort_if_unique_id_configured
      {| upd_host := Some h; upd_port := Some p; upd_api_key := None |} ;;
    h <- self_host ;;
    p <- self_port ;;
    assign (with_context (ctx_title_placeholders ("host", h))) ;;
    assign (with_context (ctx_configuration_url (BridgeUrl h p))) ;;
    async_step_link None env.

Definition async_step_hassio (config : HassioConfig) (env : Env)
  : Flow FlowResult :=
  assign (with_bridge_id (normalize_bridge_id (hassio_serial config))) ;;
  uid <- read bridge_id ;;
  async_set_unique_id uid ;;
  assign (with_host (hassio_host config)) ;;
  assign (with_port (hassio_port config)) ;;
  assign (with_api_key (hassio_api_key config)) ;;
  h <- self_host ;;
  p <- self_port ;;
  k <- self_api_key ;;
  _abort_if_unique_id_configured
    {| upd_host := Some h; upd_port := Some p; upd_api_key := Some k |} ;;
  assign (with_context (ctx_configuration_url HASSIO_CONFIGURATION_URL)) ;;
  assign (with_hassio_discovery config) ;;
  async_step_hassio_confirm None env.

End Announcements.

(** A negotiation that did not hand out a key. *)
Definition negotiation_failed (outcome : ApiKeyOutcome) : Prop :=
  match outcome with
  | ApiKeyOk _ => False
  | ApiKeyLinkButtonNotPressed | ApiKeyResponseError
  | ApiKeyRequestError | ApiKeyTimeout => True
  end.

(** The handler and the world a step leaves behind. *)
Definition handler_after {A} (r : Outcome A * DeconzFlowHandler * World)
  : DeconzFlowHandler := snd (fst r).
Definition world_after {A} (r : Outcome A * DeconzFlowHandler * World)
  : World := snd r.


(** ** The flow manager *)

(** Modelled from the spec: the flow manager's handling of a step
    (homeassistant/data_entry_flow.py) is missing from the sources. Section
    4.5: the ledger's duplicate "signal" ends the flow as an abort with its
    reason; section 6: a step returns a prompt or a terminal outcome, and a
    terminal outcome is handed to [async_finish_flow]. Any other exception
    reaches the caller. *)
Definition manage (step : Flow FlowResult) : Flow FlowResult :=
  fun f w =>
    match step f w with
    | (Returned result, f', w') => (Returned result, f', async_finish_flow f' result w')
    | (Raised (AbortFlow reason), f', w') => (Returned (async_abort reason), f', w')
    | (Raised e, f', w') => (Raised e, f', w')
    end.

(** A call of one step with its input. *)
Inductive Step :=
| step_user (user_input : option (option string))
| step_manual_input (user_input : option ManualInput)
| step_link (user_input : option unit)
| step_reauth (entry_data : ConfData)
| step_ssdp (discovery_info : SsdpServiceInfo)
| step_hassio (discovery_info : HassioConfig)
| step_hassio_confirm (user_input : option unit).

Definition step_name (s : Step) : string :=
  match s with
  | step_user _ => "user"
  | step_manual_input _ => "manual_input"
  | step_link _ => "link"
  | step_reauth _ => "reauth"
  | step_ssdp _ => "ssdp"
  | step_hassio _ => "hassio"
  | step_hassio_confirm _ => "hassio_confirm"
  end.

(** The step a flow of each source starts with. *)
Definition init_step (src : Source) : string :=
  match src with
  | SOURCE_USER => "user"
  | SOURCE_SSDP => "ssdp"
  | SOURCE_HASSIO => "hassio"
  | SOURCE_REAUTH => "reauth"
  end.

Section Flows.

Variable normalize_bridge_id : string -> string.

Definition call_step (s : Step) (env : Env) : Flow FlowResult :=
  match s with
  | step_user user_input => async_step_user user_input env
  | step_manual_input user_input => async_step_manual_input user_input env
  | step_link user_input => async_step_link user_input env
  | step_reauth entry_data => async_step_reauth entry_data env
  | step_ssdp discovery_info => async_step_ssdp normalize_bridge_id discovery_info env
  | step_hassio discovery_info =>
      async_step_hassio normalize_bridge_id discovery_info env
  | step_hassio_confirm user_input => async_step_hassio_confirm user_input env
  end.

(** Modelled from the spec: the flow manager's [async_init] and
    [async_configure] of homeassistant/data_entry_flow.py are missing from
    the sources. Section 6: "a step-oriented flow API where each step either
    returns a prompt descriptor ... or a terminal outcome". The steps of one
    flow, each with the outcomes of the calls it may make: the step called
    is the one the flow is waiting at ([expected]: the step of the source at
    first, then the step of the form shown last), and nothing is called
    once the flow is over. [None]: the steps are not those of a flow. *)
Fixpoint async_configure (expected : string) (steps : list (Step * Env))
    (f : DeconzFlowHandler) (w : World)
  : option (Outcome FlowResult * DeconzFlowHandler * World) :=
  match steps with
  | [] => None
  | (s, env) :: later =>
      if String.eqb (step_name s) expected then
        let after := manage (call_step s env) f w in
        match later with
        | [] => Some after
        | _ :: _ =>
            match after with
            | (Returned (FORM next _ _ _), f', w') => async_configure next later f' w'
            | _ => None
            end
        end
      else None
  end.

Definition async_init (src : Source) (steps : list (Step * Env)) (w : World)
  : option (Outcome FlowResult * DeconzFlowHandler * World) :=
  async_configure (init_step src) steps (__init__ (start_context src)) w.

End Flows.

(** ** The options flow (DeconzOptionsFlowHandler) *)

Module OptionsFlow.

(** The options of a config entry and the submitted form: a dict from the
    name of an option to its value, the items in insertion order. The
    options of this integration are flags. *)
Definition dict : Type := list (string * bool).

(** [d.get(key)] *)
Fixpoint get (key : string) (d : dict) : option bool :=
  match d with
  | [] => None
  | (k, v) :: rest => if String.eqb k key then Some v else get key rest
  end.

(** [d[key] = value]: the value of a key that is present is replaced where
    it stands, a new key goes to the end. *)
Fixpoint setitem (key : string) (value : bool) (d : dict) : dict :=
  match d with
  | [] => [(key, value)]
  | (k, v) :: rest =>
      if String.eqb k key then (k, value) :: rest
      else (k, v) :: setitem key value rest
  end.

(** [d.update(other)]: the items of [other] are assigned one after the
    other. *)
Definition update (d other : dict) : dict :=
  fold_left (fun acc item => setitem (fst item) (snd item) acc) other d.

(** The attributes of the handler: the options of the config entry it was
    made for, and its own copy of them. *)
Record DeconzOptionsFlowHandler := {
  config_entry_options : dict;
  options : dict
}.

(** [__init__]: [self.options = dict(config_entry.options)], and
    [async_get_options_flow], which only calls it. *)
Definition __init__ (entry_options : dict) : DeconzOptionsFlowHandler :=
  {| config_entry_options := entry_options; options := entry_options |}.
Definition async_get_options_flow (entry_options : dict)
  : DeconzOptionsFlowHandler := __init__ entry_options.

(** The results of the options flow: the form with, for each option of its
    schema, the default shown, or the entry with the new options. *)
Inductive OptionsFlowResult :=
| OPTIONS_FORM (step_id : string) (data_schema : list (string * bool))
| OPTIONS_CREATE_ENTRY (title : string) (data : dict).

Section Constants.

(** The names of the three options and their defaults are constants of
    [.const]: any names and any defaults here. *)
Variables CONF_ALLOW_CLIP_SENSOR CONF_ALLOW_DECONZ_GROUPS
  CONF_ALLOW_NEW_DEVICES : string.
Variables DEFAULT_ALLOW_CLIP_SENSOR DEFAULT_ALLOW_DECONZ_GROUPS
  DEFAULT_ALLOW_NEW_DEVICES : bool.

(** The tuple the [for] loop of the step runs over. *)
Definition option_defaults : list (string * bool) :=
  [ (CONF_ALLOW_CLIP_SENSOR, DEFAULT_ALLOW_CLIP_SENSOR);
    (CONF_ALLOW_DECONZ_GROUPS, DEFAULT_ALLOW_DECONZ_GROUPS);
    (CONF_ALLOW_NEW_DEVICES, DEFAULT_ALLOW_NEW_DEVICES) ].

(** [self.config_entry.options.get(option, default)] *)
Definition shown_default (self : DeconzOptionsFlowHandler)
    (item : string * bool) : string * bool :=
  (fst item,
   match get (fst item) (config_entry_options self) with
   | Some stored => stored
   | None => snd item
   end).

Definition async_step_deconz_devices (user_input : option dict)
    (self : DeconzOptionsFlowHandler)
  : OptionsFlowResult * DeconzOptionsFlowHandler :=
  match user_input with
  | Some input =>
      let updated :=
        {| config_entry_options := config_entry_options self;
           options := update (options self) input |} in
      (OPTIONS_CREATE_ENTRY EmptyString (options updated), updated)
  | None =>
      (OPTIONS_FORM "deconz_devices" (map (shown_default self) option_defaults),
       self)
  end.

(** The step passes no input on: [self.async_step_deconz_devices()]. *)
Definition async_step_init (user_input : option dict)
    (self : DeconzOptionsFlowHandler)
  : OptionsFlowResult * DeconzOptionsFlowHandler :=
  async_step_deconz_devices None self.

End Constants.

End OptionsFlow.

(** ** A normalizer, and the data of the examples *)

Definition lower (c : Ascii.ascii) : Ascii.ascii :=
  let n := Ascii.nat_of_ascii c in
  if (Nat.leb 65 n && Nat.leb n 90)%bool then Ascii.ascii_of_nat (n + 32) else c.

(** Modelled from the spec: [normalize_bridge_id] is a function of pydeconz,
    which is not part of the sources. Section 4.1: "case-fold, strip/standardize
    separators"; section 8: "00:11:22:FF" is normalized to "001122ff". The
    letters are lower-cased and the colons dropped. It stands for the
    library's function in the examples only. *)
Fixpoint normalize_bridge_id_spec (raw : string) : string :=
  match raw with
  | EmptyString => EmptyString
  | String c rest =>
      if Ascii.eqb c ":"%char then normalize_bridge_id_spec rest
      else String (lower c) (normalize_bridge_id_spec rest)
  end.

Module Example.

(** A bridge that was paired before, by a user. *)
Definition paired : ConfigEntry :=
  {| entry_unique_id := Some "001122ff"; entry_source := SOURCE_USER;
     entry_title := "001122ff";
     entry_data := {| conf_host := "10.0.0.5"; conf_port := 80%Z;
                      conf_api_key := "ABC123" |} |}.

(** The same bridge, set up by the host platform. *)
Definition paired_by_hassio : ConfigEntry :=
  {| entry_unique_id := Some "001122ff"; entry_source := SOURCE_HASSIO;
     entry_title := "001122ff";
     entry_data := {| conf_host := "10.0.0.5"; conf_port := 80%Z;
                      conf_api_key := "ABC123" |} |}.

Definition world_of (entries : list ConfigEntry) : World :=
  {| config_entries := entries; calls := [] |}.

(** A step of which no call fails: discovery finds [found], the bridge
    hands out [key] and reports the identity [id]. *)
Definition all_well (found : list DiscoveredBridge) (key id : string) : Env :=
  {| discovery_outcome := DiscoveryOk found;
     get_api_key_outcome := ApiKeyOk key;
     get_bridge_id_outcome := BridgeIdOk id |}.

(** A step in which the link button was not pressed. *)
Definition not_pressed : Env :=
  {| discovery_outcome := DiscoveryOk [];
     get_api_key_outcome := ApiKeyLinkButtonNotPressed;
     get_bridge_id_outcome := BridgeIdOk "001122ff" |}.

(** A step in which neither the discovery service nor the bridge can be
    reached. *)
Definition unreachable : Env :=
  {| discovery_outcome := DiscoveryRequestError;
     get_api_key_outcome := ApiKeyRequestError;
     get_bridge_id_outcome := BridgeIdTimeout |}.

(** A step in which every call runs into its timeout. *)
Definition all_timeout : Env :=
  {| discovery_outcome := DiscoveryTimeout;
     get_api_key_outcome := ApiKeyTimeout;
     get_bridge_id_outcome := BridgeIdTimeout |}.

(** The bridge at a new address, as discovery reports it. *)
Definition moved : DiscoveredBridge :=
  {| br_id := "001122ff"; br_host := "10.0.0.9"; br_port := 8080%Z |}.

(** A bridge whose identity discovery reports with colons and capitals. *)
Definition raw_bridge : DiscoveredBridge :=
  {| br_id := "00:11:22:FF"; br_host := "10.0.0.9"; br_port := 8080%Z |}.


(** The user flow that picks the discovered bridge and links with it. *)
Definition pick_discovered (bridge : DiscoveredBridge) (key : string)
  : list (Step * Env) :=
  [ (step_user None, all_well [bridge] key (br_id bridge));
    (step_user (Some (Some (br_host bridge))), all_well [bridge] key (br_id bridge));
    (step_link (Some tt), all_well [bridge] key (br_id bridge)) ].

(** The user flow that enters the address by hand and links. *)
Definition enter_by_hand (h : string) (p : Z) (key id : string)
  : list (Step * Env) :=
  [ (step_user None, all_well [] key id);
    (step_manual_input (Some {| manual_host := h; manual_port := p |}),
     all_well [] key id);
    (step_link (Some tt), all_well [] key id) ].

(** The re-authentication of [paired], with a new key. *)
Definition reauth (key : string) : list (Step * Env) :=
  [ (step_reauth (entry_data paired), all_well [] key "001122ff");
    (step_link (Some tt), all_well [] key "001122ff") ].

(** The announcement of the host platform for the bridge at a new address. *)
Definition hassio_moved : HassioConfig :=
  {| hassio_serial := "00:11:22:FF"; hassio_host := "core-deconz";
     hassio_port := 40850%Z; hassio_api_key := "NEWKEY";
     hassio_addon := "deCONZ" |}.

(** A bridge set up by the host platform, under a serial of twelve digits,
    and the announcements of the host platform and of the network for this
    bridge at a new address. *)
Definition hassio_record : ConfigEntry :=
  {| entry_unique_id := Some "001122334455"; entry_source := SOURCE_HASSIO;
     entry_title := "001122334455";
     entry_data := {| conf_host := "10.0.0.5"; conf_port := 80%Z;
                      conf_api_key := "ABC123" |} |}.
Definition hassio_again : HassioConfig :=
  {| hassio_serial := "001122334455"; hassio_host := "core-deconz";
     hassio_port := 40850%Z; hassio_api_key := "NEWKEY";
     hassio_addon := "deCONZ" |}.
Definition ssdp_again : SsdpServiceInfo :=
  {| upnp_serial := "001122334455"; location_hostname := "10.0.0.9";
     location_port := 8080%Z |}.

(** The network announcement for the bridge at a new address. *)
Definition ssdp_moved : SsdpServiceInfo :=
  {| upnp_serial := "00:11:22:FF"; location_hostname := "10.0.0.9";
     location_port := 8080%Z |}.

(** A handler of a user flow that knows the address of the bridge, and
    one that has the key as well. *)
Definition at_link : DeconzFlowHandler :=
  with_port 80%Z (with_host "10.0.0.5" (__init__ (start_context SOURCE_USER))).
Definition at_commit : DeconzFlowHandler := with_api_key "ABC123" at_link.

(** A handler of a user flow to which discovery reported [bridge]. *)
Definition at_choice (bridge : DiscoveredBridge) : DeconzFlowHandler :=
  with_bridges [bridge] (__init__ (start_context SOURCE_USER)).

(** A handler at the link form that knows the identity of the bridge. *)
Definition at_link_known : DeconzFlowHandler :=
  with_bridge_id "001122ff" at_link.

(** The options of an entry: the master flag and one of the three options. *)
Definition stored_options : OptionsFlow.dict :=
  [ ("master", true); ("allow_clip_sensor", true) ].

(** A registry with one gateway that is not the master. *)
Definition no_master : Gateway.registry (string * bool) :=
  [ ("entry1", ("00212EFFFF000001", false)) ].

(** A registry with two gateways, the second one the master. *)
Definition two_gateways : Gateway.registry (string * bool) :=
  [ ("entry1", ("00212EFFFF000001", false));
    ("entry2", ("00212EFFFF000002", true)) ].

End Example.

(** ** Tactics for the steps *)

Ltac unfold_flow :=
  unfold manage, async_step_user, discover_bridges, async_step_manual_input,
    async_step_reauth, async_step_hassio_confirm, async_step_link,
    _create_entry, create_entry_result, _abort_if_unique_id_configured,
    async_set_unique_id, self_host, self_port, self_api_key, self_bridges,
    read_assigned, read, assign, await, bind, ret, raise,
    async_show_form, async_create_entry, async_abort in *.

Ltac case_on_matches :=
  repeat match goal with
         | |- context [match ?x with _ => _ end] =>
             lazymatch x with
             | context [match _ with _ => _ end] => fail
             | _ => destruct x eqn:?
             end; cbn
         end.

(** * Properties *)

(** ** get_master_gateway *)

Section RegistryFacts.

Variable DeconzGateway : Type.
Variable master : DeconzGateway -> bool.

Lemma first_master_found (before : list DeconzGateway) gateway after :
  (forall g, In g before -> master g = false) ->
  master gateway = true ->
  Gateway.first_master master (before ++ gateway :: after) = inl gateway.
Proof.
  intros Hnone Hmaster.
  induction before as [|g before IH]; cbn.
  - now rewrite Hmaster.
  - rewrite (Hnone g (or_introl eq_refl)).
    apply IH. intros g' Hin. apply Hnone. now right.
Qed.

Lemma first_master_split (gateways : list DeconzGateway) :
  (exists g, In g gateways /\ master g = true) ->
  exists before gateway after,
    gateways = before ++ gateway :: after
    /\ (forall g, In g before -> master g = false)
    /\ master gateway = true.
Proof.
  induction gateways as [|g rest IH]; intros [x [Hin Hx]].
  - destruct Hin.
  - destruct (master g) eqn:Hg.
    + exists [], g, rest. repeat split; auto. intros ? [].
    + destruct Hin as [-> | Hin]; [congruence|].
      destruct (IH (ex_intro _ x (conj Hin Hx)))
        as (before & gateway & after & -> & Hnone & Hmaster).
      exists (g :: before), gateway, after. repeat split; auto.
      intros g' [<- | Hin']; auto.
Qed.

Lemma first_master_none (gateways : list DeconzGateway) :
  (forall g, In g gateways -> master g = false) ->
  Gateway.first_master master gateways = inr Gateway.ValueError.
Proof.
  induction gateways as [|g rest IH]; intros Hnone; cbn; [reflexivity|].
  rewrite (Hnone g (or_introl eq_refl)).
  apply IH. intros g' Hin. apply Hnone. now right.
Qed.

(** C10. When a registered gateway is marked master, the call returns the
    first such gateway in the order the registry iterates; when none is,
    the call raises ValueError; a call that returns yields a gateway, there
    is no other result. *)
Theorem get_master_gateway_first_or_ValueError
    (data : Gateway.registry DeconzGateway) :
  ((exists g, In g (Gateway.values data) /\ master g = true) ->
   exists before gateway after,
     Gateway.values data = before ++ gateway :: after
     /\ (forall g, In g before -> master g = false)
     /\ master gateway = true
     /\ Gateway.get_master_gateway master data = inl gateway)
  /\ ((forall g, In g (Gateway.values data) -> master g = false) ->
      Gateway.get_master_gateway master data = inr Gateway.ValueError)
  /\ (forall gateway,
        Gateway.get_master_gateway master data = inl gateway ->
        In gateway (Gateway.values data) /\ master gateway = true).
Proof.
  unfold Gateway.get_master_gateway. split; [|split].
  - intros Hex.
    destruct (first_master_split _ Hex)
      as (before & gateway & after & Heq & Hnone & Hmaster).
    exists before, gateway, after. repeat split; auto.
    rewrite Heq. now apply first_master_found.
  - apply first_master_none.
  - generalize (Gateway.values data). intros gateways gateway.
    induction gateways as [|g rest IH]; cbn; [discriminate|].
    destruct (master g) eqn:Hg.
    + intros [= <-]. auto.
    + intros H. destruct (IH H). auto.
Qed.

End RegistryFacts.

Lemma get_master_gateway_of_examples :
  Gateway.get_master_gateway snd Example.two_gateways
  = inl ("00212EFFFF000002", true)
  /\ Gateway.get_master_gateway snd Example.no_master = inr Gateway.ValueError.
Proof.
  split.
  - destruct (get_master_gateway_first_or_ValueError _ snd Example.two_gateways)
      as [Hfirst _].
    destruct Hfirst as (before & gateway & after & Heq & Hnone & Hmaster & Hget).
    + exists ("00212EFFFF000002", true). cbn. auto.
    + rewrite Hget. cbn in Heq.
      destruct before as [|b1 before].
      * cbn in Heq. injection Heq as <- _. discriminate Hmaster.
      * destruct before as [|b2 before].
        -- cbn in Heq. now injection Heq as _ <- _.
        -- exfalso. injection Heq as _ _ Heq.
           destruct before; discriminate Heq.
  - apply (get_master_gateway_first_or_ValueError _ snd Example.no_master).
    intros g [<- | []]. reflexivity.
Defined.

(** ** The steps of the flow *)

(** The three outcomes of the link step, for a handler that knows the
    address of the bridge. *)
Lemma async_step_link_outcomes (env : Env) (f : DeconzFlowHandler) (w : World)
    (h : string) (p : Z) :
  host f = Some h ->
  port f = Some p ->
  async_step_link (Some tt) env f w =
  match get_api_key_outcome env with
  | ApiKeyOk key =>
      _create_entry env (with_api_key key f) (with_call (get_api_key h p) w)
  | ApiKeyLinkButtonNotPressed =>
      (Returned (FORM "link" [] [("base", "linking_not_possible")] []),
       f, with_call (get_api_key h p) w)
  | ApiKeyResponseError | ApiKeyRequestError | ApiKeyTimeout =>
      (Returned (FORM "link" [] [("base", "no_key")] []),
       f, with_call (get_api_key h p) w)
  end.
Proof.
  intros Hh Hp.
  unfold async_step_link, self_host, self_port, read_assigned, bind.
  rewrite Hh, Hp. cbn -[_create_entry]. rewrite Hh, Hp.
  destruct (get_api_key_outcome env); reflexivity.
Qed.

(** C4. In the link step a key that was handed out is assigned and the step
    goes on to [_create_entry]; a button that was not pressed shows the link
    form again with the reason linking_not_possible; a response error, a
    request error or a timeout shows the link form again with the other
    reason no_key. A negotiation that failed shows the form, it never
    aborts the flow. *)
Theorem async_step_link_three_outcomes (env : Env) (f : DeconzFlowHandler)
    (w : World) (h : string) (p : Z) :
  host f = Some h ->
  port f = Some p ->
  (forall key,
     get_api_key_outcome env = ApiKeyOk key ->
     api_key (with_api_key key f) = Some key
     /\ async_step_link (Some tt) env f w
        = _create_entry env (with_api_key key f)
            (with_call (get_api_key h p) w))
  /\ (get_api_key_outcome env = ApiKeyLinkButtonNotPressed ->
      async_step_link (Some tt) env f w
      = (Returned (FORM "link" [] [("base", "linking_not_possible")] []),
         f, with_call (get_api_key h p) w))
  /\ (get_api_key_outcome env = ApiKeyResponseError
      \/ get_api_key_outcome env = ApiKeyRequestError
      \/ get_api_key_outcome env = ApiKeyTimeout ->
      async_step_link (Some tt) env f w
      = (Returned (FORM "link" [] [("base", "no_key")] []),
         f, with_call (get_api_key h p) w))
  /\ "linking_not_possible" <> "no_key"
  /\ (negotiation_failed (get_api_key_outcome env) ->
      forall reason f' w',
        async_step_link (Some tt) env f w
        <> (Returned (ABORT reason), f', w')).
Proof.
  intros Hh Hp.
  rewrite (async_step_link_outcomes env f w h p Hh Hp).
  split; [|split; [|split; [|split]]].
  - intros key ->. split; reflexivity.
  - intros ->. reflexivity.
  - intros [-> | [-> | ->]]; reflexivity.
  - discriminate.
  - destruct (get_api_key_outcome env); cbn; intros Hfail; try contradiction;
      discriminate.
Qed.

(** The calls made before a commit have no part in it: they stay in the log,
    in front of the calls the commit makes. *)
Lemma create_entry_after_call (env : Env) (f : DeconzFlowHandler) (w : World)
    (c : Call) :
  exists made,
    calls (snd (_create_entry env f w)) = calls w ++ made
    /\ calls (snd (_create_entry env f (with_call c w)))
       = (calls w ++ [c]) ++ made
    /\ fst (_create_entry env f (with_call c w))
       = fst (_create_entry env f w)
    /\ config_entries (snd (_create_entry env f (with_call c w)))
       = config_entries (snd (_create_entry env f w)).
Proof.
  unfold_flow. cbn.
  case_on_matches.
  all: first [ exists []; rewrite !app_nil_r; repeat split; reflexivity
             | eexists; repeat split; reflexivity ].
Qed.

Lemma link_success_commits (env : Env) (f : DeconzFlowHandler) (w : World)
    (h : string) (p : Z) (key : string) :
  host f = Some h ->
  port f = Some p ->
  get_api_key_outcome env = ApiKeyOk key ->
  async_step_link (Some tt) env f w
  = _create_entry env (with_api_key key f) (with_call (get_api_key h p) w).
Proof.
  intros Hh Hp Hkey.
  now rewrite (async_step_link_outcomes env f w h p Hh Hp), Hkey.
Qed.

Lemma link_failure_prompts_again (env : Env) (f : DeconzFlowHandler) (w : World)
    (h : string) (p : Z) :
  host f = Some h ->
  port f = Some p ->
  negotiation_failed (get_api_key_outcome env) ->
  exists reason,
    async_step_link (Some tt) env f w
    = (Returned (FORM "link" [] [("base", reason)] []),
       f, with_call (get_api_key h p) w).
Proof.
  intros Hh Hp Hfail.
  rewrite (async_step_link_outcomes env f w h p Hh Hp).
  destruct (get_api_key_outcome env); try contradiction; eexists; reflexivity.
Qed.

Lemma discover_bridges_nothing_found (env : Env) (f : DeconzFlowHandler)
    (w : World) :
  discovery_outcome env = DiscoveryTimeout
  \/ discovery_outcome env = DiscoveryResponseError ->
  discover_bridges env f w
  = (Returned (FORM "manual_input" [] [] []),
     with_bridges [] f, with_call deconz_discovery w).
Proof.
  intros [H | H]; unfold_flow; cbn; rewrite H; reflexivity.
Qed.

Lemma discover_bridges_unreachable (env : Env) (f : DeconzFlowHandler)
    (w : World) :
  discovery_outcome env = DiscoveryRequestError ->
  discover_bridges env f w
  = (Raised RequestError, f, with_call deconz_discovery w).
Proof.
  intros H; unfold_flow; cbn; rewrite H; reflexivity.
Qed.

(** What the user step does on the two discovery failures that its [except]
    clause names: an empty list of bridges and the form of the manual
    input, both when the flow starts and when a submitted host is none of
    the bridges known so far. *)
Lemma discovery_failure_goes_to_manual_input (env : Env)
    (f : DeconzFlowHandler) (w : World) :
  discovery_outcome env = DiscoveryTimeout
  \/ discovery_outcome env = DiscoveryResponseError ->
  async_step_user None env f w
  = (Returned (FORM "manual_input" [] [] []),
     with_bridges [] f, with_call deconz_discovery w)
  /\ forall chosen known,
       bridges f = Some known ->
       String.eqb chosen CONF_MANUAL_INPUT = false ->
       find (fun bridge => String.eqb (br_host bridge) chosen) known = None ->
       async_step_user (Some (Some chosen)) env f w
       = (Returned (FORM "manual_input" [] [] []),
          with_bridges [] f, with_call deconz_discovery w).
Proof.
  intros Hfail. split.
  - unfold async_step_user.
    now rewrite (discover_bridges_nothing_found env f w Hfail).
  - intros chosen known Hknown Hmanual Hfind.
    unfold async_step_user, self_bridges, read_assigned, bind.
    rewrite Hmanual, Hknown, Hfind.
    now rewrite (discover_bridges_nothing_found env f w Hfail).
Qed.

(** C6, at the input where the code fails it. A discovery that times out or
    raises a response error is caught: the list of bridges is empty and the
    user step shows the form of the manual input. A discovery that raises
    the request error of the library is not: the user step shows no form,
    assigns no list of bridges, and the error reaches the caller of the
    step, at the start of the flow and when a submitted host is none of the
    bridges known so far. The link step does catch this error of its own
    call. *)
Theorem discovery_request_error_reaches_the_caller (env : Env)
    (f : DeconzFlowHandler) (w : World) :
  discovery_outcome env = DiscoveryRequestError ->
  async_step_user None env f w
  = (Raised RequestError, f, with_call deconz_discovery w)
  /\ (forall chosen known,
        bridges f = Some known ->
        String.eqb chosen CONF_MANUAL_INPUT = false ->
        find (fun bridge => String.eqb (br_host bridge) chosen) known = None ->
        async_step_user (Some (Some chosen)) env f w
        = (Raised RequestError, f, with_call deconz_discovery w))
  /\ (forall h p,
        host f = Some h ->
        port f = Some p ->
        get_api_key_outcome env = ApiKeyRequestError ->
        async_step_link (Some tt) env f w
        = (Returned (FORM "link" [] [("base", "no_key")] []),
           f, with_call (get_api_key h p) w)).
Proof.
  intros Hunreachable. split; [|split].
  - unfold async_step_user.
    now rewrite (discover_bridges_unreachable env f w Hunreachable).
  - intros chosen known Hknown Hmanual Hfind.
    unfold async_step_user, self_bridges, read_assigned, bind.
    rewrite Hmanual, Hknown, Hfind.
    now rewrite (discover_bridges_unreachable env f w Hunreachable).
  - intros h p Hh Hp Hkey.
    now rewrite (async_step_link_outcomes env f w h p Hh Hp), Hkey.
Qed.

(** C7. When the identity is still unknown at the commit ([bridge_id] is
    empty) and the call that asks the bridge for it times out, the step ends
    the flow with the abort reason no_bridges: the result is an abort, not a
    form to submit again, no entry is created and none is changed. *)
Theorem identity_timeout_aborts_no_bridges (env : Env) (f : DeconzFlowHandler)
    (w : World) (h : string) (p : Z) (k : string) :
  bridge_id f = EmptyString ->
  host f = Some h ->
  port f = Some p ->
  api_key f = Some k ->
  get_bridge_id_outcome env = BridgeIdTimeout ->
  exists w',
    _create_entry env f w = (Returned (ABORT "no_bridges"), f, w')
    /\ config_entries w' = config_entries w
    /\ calls w' = calls w ++ [deconz_get_bridge_id h p k].
Proof.
  intros Hid Hh Hp Hk Htimeout.
  exists (with_call (deconz_get_bridge_id h p k) w).
  unfold_flow. rewrite Hid. cbn. rewrite Hh. cbn. rewrite Hp. cbn.
  rewrite Hk. cbn. rewrite Htimeout. cbn. auto.
Qed.

(** ** The ledger *)

Lemma find_split {A} (test : A -> bool) (l : list A) (x : A) :
  find test l = Some x ->
  exists before after,
    l = before ++ x :: after
    /\ (forall y, In y before -> test y = false)
    /\ test x = true.
Proof.
  induction l as [|a l IH]; cbn; [discriminate|].
  destruct (test a) eqn:Ha.
  - intros [= <-]. exists [], l. repeat split; auto. intros ? [].
  - intros Hfind. destruct (IH Hfind) as (before & after & -> & Hnone & Hx).
    exists (a :: before), after. repeat split; auto.
    intros y [<- | Hin]; auto.
Qed.

Lemma async_update_entry_first (uid : string) (updates : ConfUpdates)
    (before : list ConfigEntry) (entry : ConfigEntry) (after : list ConfigEntry) :
  (forall e, In e before -> unique_id_is uid e = false) ->
  unique_id_is uid entry = true ->
  async_update_entry uid updates (before ++ entry :: after)
  = Some (before
          ++ {| entry_unique_id := entry_unique_id entry;
                entry_source := entry_source entry;
                entry_title := entry_title entry;
                entry_data := merge_updates (entry_data entry) updates |}
          :: after).
Proof.
  intros Hnone Hentry.
  induction before as [|b before IH]; cbn.
  - now rewrite Hentry.
  - rewrite (Hnone b (or_introl eq_refl)).
    rewrite IH; [reflexivity|]. intros e Hin. apply Hnone. now right.
Qed.

Lemma async_update_entry_missing (uid : string) (updates : ConfUpdates)
    (entries : list ConfigEntry) :
  find (unique_id_is uid) entries = None ->
  async_update_entry uid updates entries = None.
Proof.
  induction entries as [|e entries IH]; cbn; [reflexivity|].
  destruct (unique_id_is uid e); [discriminate|].
  intros Hfind. now rewrite (IH Hfind).
Qed.

Section AnnouncementFacts.

Variable normalize_bridge_id : string -> string.

(** A network announcement for an identity whose record came from the host
    platform: aborted at once, the world as it was. *)
Lemma ssdp_hassio_record_aborts (info : SsdpServiceInfo) (env : Env)
    (f : DeconzFlowHandler) (w : World) (found : ConfigEntry) :
  find (unique_id_is (normalize_bridge_id (upnp_serial info))) (config_entries w)
  = Some found ->
  entry_source found = SOURCE_HASSIO ->
  manage (async_step_ssdp normalize_bridge_id info env) f w
  = (Returned (ABORT "already_configured"),
     with_context (ctx_unique_id (Some (normalize_bridge_id (upnp_serial info))))
       (with_bridge_id (normalize_bridge_id (upnp_serial info)) f),
     w).
Proof.
  intros Hfind Hsource.
  unfold async_step_ssdp. unfold_flow. cbn.
  rewrite Hfind, Hsource. reflexivity.
Qed.

(** C3. A network announcement whose normalized identity has a record that
    came from the host platform ends at once with the abort reason
    already_configured: the link step is not entered, no call is made to
    the bridge (the log of calls is as before) and no entry is touched. *)
Theorem ssdp_aborts_before_negotiation (info : SsdpServiceInfo) (env : Env)
    (f : DeconzFlowHandler) (w : World) (found : ConfigEntry) :
  find (unique_id_is (normalize_bridge_id (upnp_serial info))) (config_entries w)
  = Some found ->
  entry_source found = SOURCE_HASSIO ->
  exists f' w',
    manage (async_step_ssdp normalize_bridge_id info env) f w
    = (Returned (ABORT "already_configured"), f', w')
    /\ calls w' = calls w
    /\ config_entries w' = config_entries w
    /\ api_key f' = api_key f.
Proof.
  intros Hfind Hsource.
  rewrite (ssdp_hassio_record_aborts info env f w found Hfind Hsource).
  eexists _, _. repeat split.
Qed.

(** What the host platform's announcement does to a record of its identity. *)
Lemma hassio_record_overwritten (config : HassioConfig) (env : Env)
    (f : DeconzFlowHandler) (w : World) (found : ConfigEntry) :
  find (unique_id_is (normalize_bridge_id (hassio_serial config)))
    (config_entries w) = Some found ->
  exists before after f',
    config_entries w = before ++ found :: after
    /\ (forall e, In e before ->
          unique_id_is (normalize_bridge_id (hassio_serial config)) e = false)
    /\ manage (async_step_hassio normalize_bridge_id config env) f w
       = (Returned (ABORT "already_configured"), f',
          with_entries
            (before
             ++ {| entry_unique_id := entry_unique_id found;
                   entry_source := entry_source found;
                   entry_title := entry_title found;
                   entry_data := {| conf_host := hassio_host config;
                                    conf_port := hassio_port config;
                                    conf_api_key := hassio_api_key config |} |}
             :: after) w).
Proof.
  intros Hfind.
  destruct (find_split _ _ _ Hfind) as (before & after & Hsplit & Hnone & Hfound).
  exists before, after. eexists. split; [exact Hsplit|]. split; [exact Hnone|].
  unfold async_step_hassio. unfold_flow. cbn.
  rewrite Hsplit.
  rewrite (async_update_entry_first _ _ before found after Hnone Hfound).
  reflexivity.
Qed.

(** C2, as the code has it. A network announcement for an identity whose
    record came from the host platform aborts and changes no entry. An
    announcement of the host platform for an identity that has a record,
    wherever the record came from, aborts with already_configured as well,
    after host, port and key of this record were overwritten with the
    announced ones; the other entries stay as they were. *)
Theorem announcement_for_known_identity (env : Env) (f : DeconzFlowHandler)
    (w : World) (found : ConfigEntry) :
  (forall info : SsdpServiceInfo,
     find (unique_id_is (normalize_bridge_id (upnp_serial info)))
       (config_entries w) = Some found ->
     entry_source found = SOURCE_HASSIO ->
     exists f',
       manage (async_step_ssdp normalize_bridge_id info env) f w
       = (Returned (ABORT "already_configured"), f', w))
  /\ (forall config : HassioConfig,
        find (unique_id_is (normalize_bridge_id (hassio_serial config)))
          (config_entries w) = Some found ->
        exists before after f',
          config_entries w = before ++ found :: after
          /\ (forall e, In e before ->
                unique_id_is (normalize_bridge_id (hassio_serial config)) e
                = false)
          /\ manage (async_step_hassio normalize_bridge_id config env) f w
             = (Returned (ABORT "already_configured"), f',
                with_entries
                  (before
                   ++ {| entry_unique_id := entry_unique_id found;
                         entry_source := entry_source found;
                         entry_title := entry_title found;
                         entry_data :=
                           {| conf_host := hassio_host config;
                              conf_port := hassio_port config;
                              conf_api_key := hassio_api_key config |} |}
                   :: after) w)).
Proof.
  split.
  - intros info Hfind Hsource. eexists.
    exact (ssdp_hassio_record_aborts info env f w found Hfind Hsource).
  - intros config Hfind.
    exact (hassio_record_overwritten config env f w found Hfind).
Qed.

End AnnouncementFacts.

(** ** Where the identity of the bridge comes from *)

(** A commit that has to ask the bridge for its identity, and finds a record
    of it: the record is updated in place and the flow ends as a duplicate. *)
Lemma commit_updates_record_of_resolved_identity (env : Env)
    (f : DeconzFlowHandler) (w : World) (h : string) (p : Z) (k id : string)
    (found : ConfigEntry) :
  bridge_id f = EmptyString ->
  host f = Some h ->
  port f = Some p ->
  api_key f = Some k ->
  get_bridge_id_outcome env = BridgeIdOk id ->
  find (unique_id_is id) (config_entries w) = Some found ->
  exists before after,
    config_entries w = before ++ found :: after
    /\ (forall e, In e before -> unique_id_is id e = false)
    /\ manage (_create_entry env) f w
       = (Returned (ABORT "already_configured"),
          with_context (ctx_unique_id (Some id)) (with_bridge_id id f),
          {| config_entries :=
               before
               ++ {| entry_unique_id := entry_unique_id found;
                     entry_source := entry_source found;
                     entry_title := entry_title found;
                     entry_data := {| conf_host := h; conf_port := p;
                                      conf_api_key := k |} |}
               :: after;
             calls := calls w ++ [deconz_get_bridge_id h p k] |}).
Proof.
  intros Hid Hh Hp Hk Hresolved Hfind.
  destruct (find_split _ _ _ Hfind) as (before & after & Hsplit & Hnone & Hfound).
  exists before, after. split; [exact Hsplit|]. split; [exact Hnone|].
  unfold_flow. rewrite Hid. cbn. rewrite Hh. cbn. rewrite Hp. cbn.
  rewrite Hk. cbn. rewrite Hresolved. cbn. rewrite Hh. cbn. rewrite Hp. cbn.
  rewrite Hk. cbn. rewrite Hsplit.
  rewrite (async_update_entry_first _ _ before found after Hnone Hfound).
  reflexivity.
Qed.

(** A commit whose identity is known already looks nothing up. *)
Lemma commit_of_known_identity_creates (env : Env) (f : DeconzFlowHandler)
    (w : World) (h : string) (p : Z) (k : string) :
  is_empty (bridge_id f) = false ->
  host f = Some h ->
  port f = Some p ->
  api_key f = Some k ->
  _create_entry env f w
  = (Returned (CREATE_ENTRY (bridge_id f)
                 {| conf_host := h; conf_port := p; conf_api_key := k |}),
     f, w).
Proof.
  intros Hid Hh Hp Hk.
  unfold_flow. rewrite Hid. cbn. rewrite Hh. cbn. rewrite Hp. cbn.
  rewrite Hk. reflexivity.
Qed.

(** A commit that has to ask the bridge for its identity, and finds no
    record of it: the result creates the entry under the reported identity. *)
Lemma commit_creates_under_reported_identity (env : Env)
    (f : DeconzFlowHandler) (w : World) (h : string) (p : Z) (k id : string) :
  bridge_id f = EmptyString ->
  host f = Some h ->
  port f = Some p ->
  api_key f = Some k ->
  get_bridge_id_outcome env = BridgeIdOk id ->
  find (unique_id_is id) (config_entries w) = None ->
  _create_entry env f w
  = (Returned (CREATE_ENTRY id
                 {| conf_host := h; conf_port := p; conf_api_key := k |}),
     with_context (ctx_unique_id (Some id)) (with_bridge_id id f),
     with_call (deconz_get_bridge_id h p k) w).
Proof.
  intros Hid Hh Hp Hk Hreported Hfind.
  pose proof (async_update_entry_missing id
                {| upd_host := Some h; upd_port := Some p;
                   upd_api_key := Some k |} _ Hfind) as Hmissing.
  unfold_flow. rewrite Hid. cbn.
  repeat progress (rewrite ?Hh, ?Hp, ?Hk, ?Hreported, ?Hmissing; cbn).
  reflexivity.
Qed.

(** The same commit when there is a record of the reported identity, as the
    step itself ends: the duplicate is raised, the record updated in place. *)
Lemma commit_raises_duplicate_after_update (env : Env)
    (f : DeconzFlowHandler) (w : World) (h : string) (p : Z) (k id : string)
    (found : ConfigEntry) :
  bridge_id f = EmptyString ->
  host f = Some h ->
  port f = Some p ->
  api_key f = Some k ->
  get_bridge_id_outcome env = BridgeIdOk id ->
  find (unique_id_is id) (config_entries w) = Some found ->
  exists before after,
    config_entries w = before ++ found :: after
    /\ (forall e, In e before -> unique_id_is id e = false)
    /\ _create_entry env f w
       = (Raised (AbortFlow "already_configured"),
          with_context (ctx_unique_id (Some id)) (with_bridge_id id f),
          {| config_entries :=
               before
               ++ {| entry_unique_id := entry_unique_id found;
                     entry_source := entry_source found;
                     entry_title := entry_title found;
                     entry_data := {| conf_host := h; conf_port := p;
                                      conf_api_key := k |} |}
               :: after;
             calls := calls w ++ [deconz_get_bridge_id h p k] |}).
Proof.
  intros Hid Hh Hp Hk Hresolved Hfind.
  destruct (find_split _ _ _ Hfind) as (before & after & Hsplit & Hnone & Hfound).
  exists before, after. split; [exact Hsplit|]. split; [exact Hnone|].
  unfold_flow. rewrite Hid. cbn.
  repeat progress (rewrite ?Hh, ?Hp, ?Hk, ?Hresolved; cbn).
  rewrite Hsplit.
  rewrite (async_update_entry_first _ _ before found after Hnone Hfound).
  reflexivity.
Qed.

(** A commit never answers with a form. *)
Lemma commit_never_prompts (env : Env) (f : DeconzFlowHandler) (w : World) :
  match _create_entry env f w with
  | (Returned (FORM _ _ _ _), _, _) => False
  | _ => True
  end.
Proof.
  unfold_flow. cbn. case_on_matches; exact I.
Qed.

(** C5. A negotiation that fails in the link step (button not pressed,
    response or request error, timeout) leaves every attribute of the
    handler as it was, host and port among them, and stores nothing: the
    link form is shown again. A negotiation that then succeeds from this
    form goes to the same host and port and completes the flow: the step
    never answers with a form again. With the identity of the bridge known
    it returns the result that creates the entry, with this host and port
    and the new key; with the identity unknown it asks the bridge for it at
    this host and port, and creates the entry under the reported identity
    when there is no record of it, updates the record of it in place with
    this host, port and key and ends as a duplicate when there is one, and
    aborts with no_bridges when the bridge does not answer in time. In all
    of this the step ends with the result, the handler and the stored
    entries that it would have ended with had the negotiation succeeded at
    once. *)
Theorem negotiation_failure_keeps_session (env again : Env)
    (f : DeconzFlowHandler) (w : World) (h : string) (p : Z) (key : string) :
  host f = Some h ->
  port f = Some p ->
  negotiation_failed (get_api_key_outcome env) ->
  get_api_key_outcome again = ApiKeyOk key ->
  exists reason f' w',
    async_step_link (Some tt) env f w
    = (Returned (FORM "link" [] [("base", reason)] []), f', w')
    /\ f' = f
    /\ host f' = Some h /\ port f' = Some p
    /\ config_entries w' = config_entries w
    /\ calls w' = calls w ++ [get_api_key h p]
    /\ (exists made,
          calls (snd (async_step_link (Some tt) again f w))
          = calls w ++ get_api_key h p :: made
          /\ calls (snd (async_step_link (Some tt) again f' w'))
             = calls w' ++ get_api_key h p :: made
          /\ fst (async_step_link (Some tt) again f' w')
             = fst (async_step_link (Some tt) again f w)
          /\ config_entries (snd (async_step_link (Some tt) again f' w'))
             = config_entries (snd (async_step_link (Some tt) again f w)))
    /\ (forall step_id hosts errors placeholders f2 w2,
          async_step_link (Some tt) again f' w'
          <> (Returned (FORM step_id hosts errors placeholders), f2, w2))
    /\ (is_empty (bridge_id f) = false ->
        async_step_link (Some tt) again f' w'
        = (Returned (CREATE_ENTRY (bridge_id f)
                       {| conf_host := h; conf_port := p;
                          conf_api_key := key |}),
           with_api_key key f, with_call (get_api_key h p) w'))
    /\ (bridge_id f = EmptyString ->
        (get_bridge_id_outcome again = BridgeIdTimeout ->
         async_step_link (Some tt) again f' w'
         = (Returned (ABORT "no_bridges"), with_api_key key f,
            with_call (deconz_get_bridge_id h p key)
              (with_call (get_api_key h p) w')))
        /\ forall id,
             get_bridge_id_outcome again = BridgeIdOk id ->
             (find (unique_id_is id) (config_entries w) = None ->
              async_step_link (Some tt) again f' w'
              = (Returned (CREATE_ENTRY id
                             {| conf_host := h; conf_port := p;
                                conf_api_key := key |}),
                 with_context (ctx_unique_id (Some id))
                   (with_bridge_id id (with_api_key key f)),
                 with_call (deconz_get_bridge_id h p key)
                   (with_call (get_api_key h p) w')))
             /\ forall found,
                  find (unique_id_is id) (config_entries w) = Some found ->
                  exists before after,
                    config_entries w = before ++ found :: after
                    /\ (forall e, In e before -> unique_id_is id e = false)
                    /\ async_step_link (Some tt) again f' w'
                       = (Raised (AbortFlow "already_configured"),
                          with_context (ctx_unique_id (Some id))
                            (with_bridge_id id (with_api_key key f)),
                          {| config_entries :=
                               before
                               ++ {| entry_unique_id := entry_unique_id found;
                                     entry_source := entry_source found;
                                     entry_title := entry_title found;
                                     entry_data :=
                                       {| conf_host := h; conf_port := p;
                                          conf_api_key := key |} |}
                               :: after;
                             calls :=
                               calls w'
                               ++ [ get_api_key h p;
                                    deconz_get_bridge_id h p key ] |})).
Proof.
  intros Hh Hp Hfail Hkey.
  destruct (link_failure_prompts_again env f w h p Hh Hp Hfail) as [reason Hform].
  set (w' := with_call (get_api_key h p) w).
  exists reason, f, w'.
  repeat (split; [first [exact Hform | reflexivity | assumption]|]).
  rewrite (link_success_commits again f w' h p key Hh Hp Hkey).
  rewrite (link_success_commits again f w h p key Hh Hp Hkey).
  set (f1 := with_api_key key f).
  set (w1 := with_call (get_api_key h p) w').
  split; [|split; [|split]].
  - destruct (create_entry_after_call again f1 w' (get_api_key h p))
      as (made & Hfirst & Hretry & Hres & Hentries).
    exists made. subst w1 w'.
    cbn [calls with_call] in Hfirst, Hretry, Hres, Hentries |- *.
    repeat split.
    + rewrite Hfirst. now rewrite <- app_assoc.
    + rewrite Hretry. now rewrite <- (app_assoc _ [get_api_key h p] made).
    + exact Hres.
    + exact Hentries.
  - intros step_id hosts errors placeholders f2 w2 Hprompt.
    pose proof (commit_never_prompts again f1 w1) as Hnever.
    now rewrite Hprompt in Hnever.
  - intros Hknown.
    exact (commit_of_known_identity_creates again f1 w1 h p key Hknown
             Hh Hp eq_refl).
  - intros Hunknown. split.
    + intros Htimeout. subst f1 w1 w'. unfold_flow. cbn.
      rewrite Hunknown. cbn.
      repeat progress (rewrite ?Hh, ?Hp, ?Htimeout; cbn).
      reflexivity.
    + intros id Hreported. split.
      * intros Hfind.
        exact (commit_creates_under_reported_identity again f1 w1 h p key id
                 Hunknown Hh Hp eq_refl Hreported Hfind).
      * intros found Hfind.
        destruct (commit_raises_duplicate_after_update again f1 w1 h p key id
                    found Hunknown Hh Hp eq_refl Hreported Hfind)
          as (before & after & Hsplit & Hnone & Hcommit).
        exists before, after. split; [exact Hsplit|]. split; [exact Hnone|].
        rewrite Hcommit. subst w1 w'. cbn [calls with_call].
        now rewrite <- (app_assoc _ [get_api_key h p]).
Qed.

Lemma filter_none {A} (test : A -> bool) (l : list A) :
  (forall y, In y l -> test y = false) -> filter test l = [].
Proof.
  induction l as [|a l IH]; cbn; intros Hnone; [reflexivity|].
  rewrite (Hnone a (or_introl eq_refl)). apply IH.
  intros y Hin. apply Hnone. now right.
Qed.

Lemma filter_out_then_in {A} (test : A -> bool) (l : list A) :
  filter test (filter (fun e => negb (test e)) l) = [].
Proof.
  apply filter_none. intros y Hin.
  apply filter_In in Hin. destruct Hin as [_ Hy].
  now destruct (test y).
Qed.

Lemma finish_stores_one_record (f : DeconzFlowHandler) (w : World)
    (id title : string) (data : ConfData) :
  unique_id (context f) = Some id ->
  exists record,
    filter (unique_id_is id)
      (config_entries (async_finish_flow f (CREATE_ENTRY title data) w))
    = [record]
    /\ entry_data record = data.
Proof.
  intros Hid. unfold async_finish_flow. rewrite Hid. cbn.
  rewrite filter_app, filter_out_then_in. cbn.
  rewrite String.eqb_refl.
  eexists. split; reflexivity.
Qed.

(** The flows that were given the identity as their unique id (at the
    announcement, or when the commit asked the bridge for it) leave one
    record of the identity, with host, port and key of the flow, when there
    was at most one before. *)
Lemma commit_with_unique_id_leaves_one_record (env : Env)
    (f : DeconzFlowHandler) (w : World) (h : string) (p : Z) (k id : string) :
  host f = Some h ->
  port f = Some p ->
  api_key f = Some k ->
  (bridge_id f = EmptyString /\ get_bridge_id_outcome env = BridgeIdOk id)
  \/ (is_empty (bridge_id f) = false /\ unique_id (context f) = Some id) ->
  length (filter (unique_id_is id) (config_entries w)) <= 1 ->
  exists record,
    filter (unique_id_is id)
      (config_entries (world_after (manage (_create_entry env) f w)))
    = [record]
    /\ entry_data record
       = {| conf_host := h; conf_port := p; conf_api_key := k |}.
Proof.
  intros Hh Hp Hk [[Hid Hresolved] | [Hid Hunique]] Hone.
  - destruct (find (unique_id_is id) (config_entries w)) as [found|] eqn:Hfind.
    + destruct (commit_updates_record_of_resolved_identity env f w h p k id found
                  Hid Hh Hp Hk Hresolved Hfind)
        as (before & after & Hsplit & Hnone & Hstep).
      rewrite Hstep. unfold world_after. cbn.
      destruct (find_split _ _ _ Hfind) as (_ & _ & _ & _ & Hfound).
      rewrite Hsplit, filter_app, (filter_none _ before Hnone) in Hone.
      cbn in Hone. rewrite Hfound in Hone. cbn in Hone.
      assert (Hafter : filter (unique_id_is id) after = [])
        by (destruct (filter (unique_id_is id) after); [reflexivity|cbn in Hone; lia]).
      rewrite filter_app, (filter_none _ before Hnone). cbn.
      unfold unique_id_is at 1. cbn. fold (unique_id_is id found).
      rewrite Hfound, Hafter. eexists. split; reflexivity.
    + pose proof (async_update_entry_missing id
                    {| upd_host := Some h; upd_port := Some p;
                       upd_api_key := Some k |} _ Hfind) as Hmissing.
      unfold world_after. unfold manage, _create_entry, create_entry_result,
        _abort_if_unique_id_configured, async_set_unique_id, self_host, self_port,
        self_api_key, read_assigned, read, assign, await, bind, ret.
      rewrite Hid. cbn -[async_finish_flow].
      repeat progress (rewrite ?Hh, ?Hp, ?Hk, ?Hresolved, ?Hmissing;
                       cbn -[async_finish_flow]).
      apply finish_stores_one_record. reflexivity.
  - unfold world_after, manage.
    rewrite (commit_of_known_identity_creates env f w h p k Hid Hh Hp Hk).
    cbn -[async_finish_flow].
    apply finish_stores_one_record. exact Hunique.
Qed.

(** C1, at the input where the code fails it. The bridge 001122ff is paired
    at 10.0.0.5:80 with the key ABC123. A user starts a flow, discovery
    finds the bridge at 10.0.0.9:8080, the user picks it and links. The
    handler is never given a unique id and the commit looks up no record: the
    last step returns a create-entry result for 001122ff with the new host,
    port and key, and the record of 001122ff is left with the old ones. *)
Theorem discovered_candidate_commit_skips_the_ledger :
  let env := Example.all_well [Example.moved] "NEWKEY" "001122ff" in
  let started :=
    async_step_user None env (__init__ (start_context SOURCE_USER))
      (Example.world_of [Example.paired]) in
  let picked :=
    async_step_user (Some (Some "10.0.0.9")) env
      (handler_after started) (world_after started) in
  let linked :=
    async_step_link (Some tt) env (handler_after picked) (world_after picked) in
  fst (fst started)
  = Returned (FORM "user" ["10.0.0.9"; CONF_MANUAL_INPUT] [] [])
  /\ fst (fst picked) = Returned (FORM "link" [] [] [])
  /\ bridge_id (handler_after picked) = "001122ff"
  /\ fst (fst linked)
     = Returned (CREATE_ENTRY "001122ff"
                   {| conf_host := "10.0.0.9"; conf_port := 8080%Z;
                      conf_api_key := "NEWKEY" |})
  /\ unique_id (context (handler_after linked)) = None
  /\ config_entries (world_after linked) = [Example.paired]
  /\ calls (world_after linked)
     = [deconz_discovery; get_api_key "10.0.0.9" 8080%Z].
Proof. repeat split. Qed.

(** The same flow under the flow manager: the create-entry result is stored
    as a second entry of the bridge, next to the record that was not
    updated. *)
Lemma discovered_candidate_flow_stores_second_entry :
  async_init normalize_bridge_id_spec SOURCE_USER
    (Example.pick_discovered Example.moved "NEWKEY")
    (Example.world_of [Example.paired])
  = Some
      (Returned
         (CREATE_ENTRY "001122ff"
            {| conf_host := "10.0.0.9"; conf_port := 8080%Z;
               conf_api_key := "NEWKEY" |}),
       {| bridge_id := "001122ff"; bridges := Some [Example.moved];
          host := Some "10.0.0.9"; port := Some 8080%Z;
          api_key := Some "NEWKEY"; _hassio_discovery := None;
          context := start_context SOURCE_USER |},
       {| config_entries :=
            [ Example.paired;
              {| entry_unique_id := None; entry_source := SOURCE_USER;
                 entry_title := "001122ff";
                 entry_data := {| conf_host := "10.0.0.9"; conf_port := 8080%Z;
                                  conf_api_key := "NEWKEY" |} |} ];
          calls := [deconz_discovery; get_api_key "10.0.0.9" 8080%Z] |}).
Proof. reflexivity. Qed.

(** The flow with manual input for the same bridge, for comparison: the
    commit asks the bridge for its identity, finds the record and updates
    it in place. *)
Lemma manual_input_flow_updates_in_place :
  async_init normalize_bridge_id_spec SOURCE_USER
    (Example.enter_by_hand "10.0.0.9" 8080%Z "NEWKEY" "001122ff")
    (Example.world_of [Example.paired])
  = Some
      (Returned (ABORT "already_configured"),
       {| bridge_id := "001122ff"; bridges := Some [];
          host := Some "10.0.0.9"; port := Some 8080%Z;
          api_key := Some "NEWKEY"; _hassio_discovery := None;
          context := ctx_unique_id (Some "001122ff") (start_context SOURCE_USER) |},
       {| config_entries :=
            [ {| entry_unique_id := Some "001122ff"; entry_source := SOURCE_USER;
                 entry_title := "001122ff";
                 entry_data := {| conf_host := "10.0.0.9"; conf_port := 8080%Z;
                                  conf_api_key := "NEWKEY" |} |} ];
          calls := [ deconz_discovery; get_api_key "10.0.0.9" 8080%Z;
                     deconz_get_bridge_id "10.0.0.9" 8080%Z "NEWKEY" ] |}).
Proof. reflexivity. Qed.

Section IdentityFacts.

Variable normalize_bridge_id : string -> string.


End IdentityFacts.



(** C9, as the code has it. A flow started for re-authentication takes host
    and port from the data of the entry, makes no call (no discovery) and
    shows the link form at once. It does not take over the identity of the
    entry: [bridge_id] is still empty, and when the negotiation then hands
    out a key the bridge is asked for its identity with this key. *)
Theorem reauth_seeds_host_and_port_only (ctx : FlowContext)
    (entry_data : ConfData) (env : Env) (w : World) :
  exists f',
    async_step_reauth entry_data env (__init__ ctx) w
    = (Returned (FORM "link" [] [] []), f', w)
    /\ host f' = Some (conf_host entry_data)
    /\ port f' = Some (conf_port entry_data)
    /\ bridge_id f' = EmptyString
    /\ unique_id (context f') = unique_id ctx
    /\ forall again key,
         get_api_key_outcome again = ApiKeyOk key ->
         calls (world_after (async_step_link (Some tt) again f' w))
         = calls w
           ++ [ get_api_key (conf_host entry_data) (conf_port entry_data);
                deconz_get_bridge_id (conf_host entry_data)
                  (conf_port entry_data) key ].
Proof.
  eexists. split; [reflexivity|]. cbn.
  repeat (split; [reflexivity|]).
  intros again key Hkey.
  unfold world_after. unfold_flow. cbn. rewrite Hkey. cbn.
  case_on_matches; cbn; now rewrite <- app_assoc.
Qed.

(** ** The claims at the examples *)

Lemma link_button_not_pressed_example :
  async_step_link (Some tt) Example.not_pressed
    Example.at_link (Example.world_of [])
  = (Returned (FORM "link" [] [("base", "linking_not_possible")] []),
     Example.at_link,
     with_call (get_api_key "10.0.0.5" 80%Z) (Example.world_of [])).
Proof.
  destruct (async_step_link_three_outcomes Example.not_pressed Example.at_link
              (Example.world_of []) "10.0.0.5" 80%Z eq_refl eq_refl)
    as (_ & Hbutton & _).
  exact (Hbutton eq_refl).
Defined.

Lemma retry_after_button_not_pressed_example :
  exists reason f' w',
    async_step_link (Some tt) Example.not_pressed
      Example.at_link (Example.world_of [])
    = (Returned (FORM "link" [] [("base", reason)] []), f', w')
    /\ host f' = Some "10.0.0.5" /\ port f' = Some 80%Z
    /\ config_entries w' = []
    /\ async_step_link (Some tt) (Example.all_well [] "ABC123" "001122ff") f' w'
       = (Returned (CREATE_ENTRY "001122ff"
                      {| conf_host := "10.0.0.5"; conf_port := 80%Z;
                         conf_api_key := "ABC123" |}),
          with_context (ctx_unique_id (Some "001122ff"))
            (with_bridge_id "001122ff" (with_api_key "ABC123" Example.at_link)),
          with_call (deconz_get_bridge_id "10.0.0.5" 80%Z "ABC123")
            (with_call (get_api_key "10.0.0.5" 80%Z) w')).
Proof.
  destruct (negotiation_failure_keeps_session Example.not_pressed
              (Example.all_well [] "ABC123" "001122ff") Example.at_link
              (Example.world_of []) "10.0.0.5" 80%Z "ABC123"
              eq_refl eq_refl I eq_refl)
    as (reason & f' & w' & Hform & _ & Hh & Hp & Hentries & _ & _ & _ & _
        & Hunknown).
  exists reason, f', w'.
  split; [exact Hform|]. split; [exact Hh|]. split; [exact Hp|].
  split; [exact Hentries|].
  exact (proj1 (proj2 (Hunknown eq_refl) "001122ff" eq_refl) eq_refl).
Defined.

Lemma discovery_timeout_example :
  async_step_user None Example.all_timeout
    (__init__ (start_context SOURCE_USER)) (Example.world_of [])
  = (Returned (FORM "manual_input" [] [] []),
     with_bridges [] (__init__ (start_context SOURCE_USER)),
     with_call deconz_discovery (Example.world_of [])).
Proof.
  exact (proj1 (discovery_failure_goes_to_manual_input Example.all_timeout
                  (__init__ (start_context SOURCE_USER))
                  (Example.world_of []) (or_introl eq_refl))).
Qed.

Lemma discovery_unreachable_example :
  async_step_user None Example.unreachable
    (__init__ (start_context SOURCE_USER)) (Example.world_of [Example.paired])
  = (Raised RequestError, __init__ (start_context SOURCE_USER),
     with_call deconz_discovery (Example.world_of [Example.paired]))
  /\ async_step_link (Some tt) Example.unreachable Example.at_link
       (Example.world_of [Example.paired])
     = (Returned (FORM "link" [] [("base", "no_key")] []), Example.at_link,
        with_call (get_api_key "10.0.0.5" 80%Z)
          (Example.world_of [Example.paired])).
Proof.
  split.
  - exact (proj1 (discovery_request_error_reaches_the_caller Example.unreachable
                    (__init__ (start_context SOURCE_USER))
                    (Example.world_of [Example.paired]) eq_refl)).
  - destruct (discovery_request_error_reaches_the_caller Example.unreachable
                Example.at_link (Example.world_of [Example.paired]) eq_refl)
      as (_ & _ & Hlink).
    exact (Hlink "10.0.0.5" 80%Z eq_refl eq_refl eq_refl).
Defined.

Lemma identity_timeout_example :
  exists w',
    _create_entry Example.all_timeout Example.at_commit
      (Example.world_of [Example.paired])
    = (Returned (ABORT "no_bridges"), Example.at_commit, w')
    /\ config_entries w' = [Example.paired]
    /\ calls w' = [deconz_get_bridge_id "10.0.0.5" 80%Z "ABC123"].
Proof.
  exact (identity_timeout_aborts_no_bridges Example.all_timeout Example.at_commit
           (Example.world_of [Example.paired]) "10.0.0.5" 80%Z "ABC123"
           eq_refl eq_refl eq_refl eq_refl eq_refl).
Defined.

Lemma ssdp_for_hassio_record_example :
  exists f' w',
    manage (async_step_ssdp normalize_bridge_id_spec Example.ssdp_moved
              Example.all_timeout)
      (__init__ (start_context SOURCE_SSDP))
      (Example.world_of [Example.paired_by_hassio])
    = (Returned (ABORT "already_configured"), f', w')
    /\ calls w' = []
    /\ config_entries w' = [Example.paired_by_hassio]
    /\ api_key f' = None.
Proof.
  exact (ssdp_aborts_before_negotiation normalize_bridge_id_spec
           Example.ssdp_moved Example.all_timeout
           (__init__ (start_context SOURCE_SSDP))
           (Example.world_of [Example.paired_by_hassio])
           Example.paired_by_hassio eq_refl eq_refl).
Defined.

(** The announcement of the host platform for the bridge 001122334455,
    under any normalizer that leaves this serial as it is: host, port and
    key of the record of the bridge, which came from the host platform, are
    overwritten. *)
Lemma hassio_announcement_overwrites_record
    (normalize_bridge_id : string -> string) (env : Env) :
  normalize_bridge_id "001122334455" = "001122334455" ->
  manage (async_step_hassio normalize_bridge_id Example.hassio_again env)
    (__init__ (start_context SOURCE_HASSIO))
    (Example.world_of [Example.hassio_record])
  = (Returned (ABORT "already_configured"),
     with_api_key "NEWKEY"
       (with_port 40850%Z
          (with_host "core-deconz"
             (with_context (ctx_unique_id (Some "001122334455"))
                (with_bridge_id "001122334455"
                   (__init__ (start_context SOURCE_HASSIO)))))),
     Example.world_of
       [ {| entry_unique_id := Some "001122334455";
            entry_source := SOURCE_HASSIO;
            entry_title := "001122334455";
            entry_data := {| conf_host := "core-deconz"; conf_port := 40850%Z;
                             conf_api_key := "NEWKEY" |} |} ]).
Proof.
  intros Hsame.
  unfold async_step_hassio. unfold_flow. cbn. rewrite Hsame. reflexivity.
Qed.

(** C2 fails on the code: the serial 001122334455 is left as it is by the
    normalizer, the record of this bridge came from the host platform, and
    the announcement of the host platform for it changes host, port and key
    of this record. *)
Lemma hassio_announcement_changes_hassio_record :
  normalize_bridge_id_spec (hassio_serial Example.hassio_again) = "001122334455"
  /\ find (unique_id_is "001122334455") [Example.hassio_record]
     = Some Example.hassio_record
  /\ entry_source Example.hassio_record = SOURCE_HASSIO
  /\ ~ config_entries
         (world_after
            (manage (async_step_hassio normalize_bridge_id_spec
                       Example.hassio_again Example.all_timeout)
               (__init__ (start_context SOURCE_HASSIO))
               (Example.world_of [Example.hassio_record])))
       = [Example.hassio_record].
Proof.
  split; [reflexivity|]. split; [reflexivity|]. split; [reflexivity|].
  rewrite (hassio_announcement_overwrites_record normalize_bridge_id_spec
             Example.all_timeout eq_refl).
  discriminate.
Qed.

Lemma announcements_for_known_identity_example :
  (exists f',
     manage (async_step_ssdp normalize_bridge_id_spec Example.ssdp_again
               Example.all_timeout)
       (__init__ (start_context SOURCE_SSDP))
       (Example.world_of [Example.hassio_record])
     = (Returned (ABORT "already_configured"), f',
        Example.world_of [Example.hassio_record]))
  /\ exists f',
       manage (async_step_hassio normalize_bridge_id_spec Example.hassio_again
                 Example.all_timeout)
         (__init__ (start_context SOURCE_HASSIO))
         (Example.world_of [Example.hassio_record])
       = (Returned (ABORT "already_configured"), f',
          Example.world_of
            [ {| entry_unique_id := Some "001122334455";
                 entry_source := SOURCE_HASSIO;
                 entry_title := "001122334455";
                 entry_data := {| conf_host := "core-deconz";
                                  conf_port := 40850%Z;
                                  conf_api_key := "NEWKEY" |} |} ]).
Proof.
  split.
  - destruct (announcement_for_known_identity normalize_bridge_id_spec
                Example.all_timeout (__init__ (start_context SOURCE_SSDP))
                (Example.world_of [Example.hassio_record])
                Example.hassio_record) as [Hssdp _].
    exact (Hssdp Example.ssdp_again eq_refl eq_refl).
  - destruct (announcement_for_known_identity normalize_bridge_id_spec
                Example.all_timeout (__init__ (start_context SOURCE_HASSIO))
                (Example.world_of [Example.hassio_record])
                Example.hassio_record) as [_ Hhassio].
    destruct (Hhassio Example.hassio_again eq_refl)
      as (before & after & f' & Hsplit & _ & Hstep).
    exists f'. rewrite Hstep.
    destruct before as [|b before].
    + cbn in Hsplit. injection Hsplit as <-. reflexivity.
    + cbn in Hsplit. injection Hsplit as _ Hsplit.
      destruct before; discriminate Hsplit.
Defined.

(** C9 fails on the code: in the flow that re-authenticates the bridge
    001122ff, the step that hands out the new key goes on to ask the bridge
    for its identity. *)
Lemma reauth_asks_bridge_for_identity :
  match async_init normalize_bridge_id_spec SOURCE_REAUTH
          (Example.reauth "NEWKEY") (Example.world_of [Example.paired]) with
  | Some (_, _, w') => ~ forall h p k, ~ In (deconz_get_bridge_id h p k) (calls w')
  | None => False
  end.
Proof.
  vm_compute. intros Hskipped.
  apply (Hskipped "10.0.0.5" 80%Z "NEWKEY"). right. left. reflexivity.
Qed.

Lemma reauth_example :
  exists f',
    async_step_reauth (entry_data Example.paired) Example.all_timeout
      (__init__ (start_context SOURCE_REAUTH)) (Example.world_of [Example.paired])
    = (Returned (FORM "link" [] [] []), f', Example.world_of [Example.paired])
    /\ bridge_id f' = EmptyString
    /\ calls (world_after
                (async_step_link (Some tt)
                           (Example.all_well [] "NEWKEY" "001122ff")
                   f' (Example.world_of [Example.paired])))
       = [ get_api_key "10.0.0.5" 80%Z;
           deconz_get_bridge_id "10.0.0.5" 80%Z "NEWKEY" ].
Proof.
  destruct (reauth_seeds_host_and_port_only (start_context SOURCE_REAUTH)
              (entry_data Example.paired) Example.all_timeout
              (Example.world_of [Example.paired]))
    as (f' & Hstep & _ & _ & Hid & _ & Hcalls).
  exists f'. split; [exact Hstep|]. split; [exact Hid|].
  exact (Hcalls (Example.all_well [] "NEWKEY" "001122ff") "NEWKEY" eq_refl).
Defined.

(** * Further properties of the code *)

(** ** get_master_gateway over a registry that grows *)

(** X1. Over a registry put together from two, the call returns the master
    of the first part when the first part has one, and otherwise does what
    it does on the second part alone: a gateway registered after a master
    never takes its place. *)
Theorem get_master_gateway_app (DeconzGateway : Type)
    (master : DeconzGateway -> bool)
    (first second : Gateway.registry DeconzGateway) :
  Gateway.get_master_gateway master (first ++ second)
  = match Gateway.get_master_gateway master first with
    | inl gateway => inl gateway
    | inr _ => Gateway.get_master_gateway master second
    end.
Proof.
  unfold Gateway.get_master_gateway, Gateway.values.
  rewrite map_app.
  induction (map snd first) as [|g gateways IH]; cbn; [reflexivity|].
  destruct (master g); [reflexivity|exact IH].
Qed.

(** ** The options flow *)

Section OptionsFacts.

Variables CONF_ALLOW_CLIP_SENSOR CONF_ALLOW_DECONZ_GROUPS
  CONF_ALLOW_NEW_DEVICES : string.
Variables DEFAULT_ALLOW_CLIP_SENSOR DEFAULT_ALLOW_DECONZ_GROUPS
  DEFAULT_ALLOW_NEW_DEVICES : bool.

Lemma get_setitem (key other : string) (value : bool) (d : OptionsFlow.dict) :
  OptionsFlow.get other (OptionsFlow.setitem key value d)
  = if String.eqb key other then Some value else OptionsFlow.get other d.
Proof.
  induction d as [|[k v] d IH]; cbn.
  - reflexivity.
  - destruct (String.eqb k key) eqn:Hk; cbn.
    + apply String.eqb_eq in Hk. subst k.
      now destruct (String.eqb key other).
    + destruct (String.eqb k other) eqn:Hother.
      * apply String.eqb_eq in Hother. subst k.
        rewrite String.eqb_sym in Hk. now rewrite Hk.
      * exact IH.
Qed.

Lemma get_update_absent (key : string) (other d : OptionsFlow.dict) :
  OptionsFlow.get key other = None ->
  OptionsFlow.get key (OptionsFlow.update d other) = OptionsFlow.get key d.
Proof.
  unfold OptionsFlow.update.
  revert d. induction other as [|[k v] other IH]; cbn; intros d Hkey.
  - reflexivity.
  - destruct (String.eqb k key) eqn:Hk; [discriminate|].
    rewrite (IH _ Hkey). rewrite get_setitem. now rewrite Hk.
Qed.

Lemma get_update_present (key : string) (value : bool)
    (other d : OptionsFlow.dict) :
  NoDup (map fst other) ->
  In (key, value) other ->
  OptionsFlow.get key (OptionsFlow.update d other) = Some value.
Proof.
  unfold OptionsFlow.update.
  revert d. induction other as [|[k v] other IH]; cbn; intros d Hnodup Hin.
  - destruct Hin.
  - inversion Hnodup as [|? ? Hfresh Hrest]; subst.
    destruct Hin as [[= -> ->] | Hin].
    + assert (Habsent : OptionsFlow.get key other = None).
      { clear - Hfresh. induction other as [|[k' v'] other IH]; cbn; [reflexivity|].
        destruct (String.eqb k' key) eqn:Hk.
        - apply String.eqb_eq in Hk. subst k'. exfalso. apply Hfresh. now left.
        - apply IH. intros Hin. apply Hfresh. now right. }
      pose proof (get_update_absent key other
                    (OptionsFlow.setitem key value d) Habsent) as Hkept.
      unfold OptionsFlow.update in Hkept. rewrite Hkept.
      rewrite get_setitem. now rewrite String.eqb_refl.
    + now apply IH.
Qed.

(** X2. When the form of the options is submitted, the entry that is
    created holds, for every option the form submitted, the submitted value,
    and for every other option of the config entry (the master flag, for
    one) the value it had; the options of the config entry itself are not
    touched by the step. *)
Theorem submitted_options_are_merged (self : OptionsFlow.DeconzOptionsFlowHandler)
    (input : OptionsFlow.dict) :
  exists data self',
    OptionsFlow.async_step_deconz_devices
      CONF_ALLOW_CLIP_SENSOR CONF_ALLOW_DECONZ_GROUPS CONF_ALLOW_NEW_DEVICES
      DEFAULT_ALLOW_CLIP_SENSOR DEFAULT_ALLOW_DECONZ_GROUPS
      DEFAULT_ALLOW_NEW_DEVICES
      (Some input) self
    = (OptionsFlow.OPTIONS_CREATE_ENTRY EmptyString data, self')
    /\ OptionsFlow.options self' = data
    /\ OptionsFlow.config_entry_options self'
       = OptionsFlow.config_entry_options self
    /\ (forall key,
          OptionsFlow.get key input = None ->
          OptionsFlow.get key data = OptionsFlow.get key (OptionsFlow.options self))
    /\ (NoDup (map fst input) ->
        forall key value,
          In (key, value) input -> OptionsFlow.get key data = Some value).
Proof.
  eexists _, _. split; [reflexivity|]. cbn.
  repeat split.
  - intros key Habsent. now apply get_update_absent.
  - intros Hnodup key value Hin. now apply get_update_present.
Qed.

Lemma get_update_same (key : string) (value : bool)
    (other d : OptionsFlow.dict) :
  OptionsFlow.get key d = Some value ->
  (forall x, In (key, x) other -> x = value) ->
  OptionsFlow.get key (OptionsFlow.update d other) = Some value.
Proof.
  unfold OptionsFlow.update.
  revert d. induction other as [|[k v] other IH]; cbn; intros d Hd Hsame.
  - exact Hd.
  - apply IH.
    + rewrite get_setitem. destruct (String.eqb k key) eqn:Hk; [|exact Hd].
      apply String.eqb_eq in Hk. subst k.
      now rewrite (Hsame v (or_introl eq_refl)).
    + intros x Hin. apply Hsame. now right.
Qed.

Lemma shown_default_of_stored (self : OptionsFlow.DeconzOptionsFlowHandler)
    (defaults : list (string * bool)) (key : string) (stored shown : bool) :
  OptionsFlow.get key (OptionsFlow.config_entry_options self) = Some stored ->
  In (key, shown) (map (OptionsFlow.shown_default self) defaults) ->
  shown = stored.
Proof.
  intros Hstored Hin. apply in_map_iff in Hin.
  destruct Hin as ([k d] & Heq & _). unfold OptionsFlow.shown_default in Heq.
  cbn in Heq. injection Heq as -> <-. now rewrite Hstored.
Qed.

Lemma shown_again (self self' : OptionsFlow.DeconzOptionsFlowHandler)
    (defaults : list (string * bool)) :
  (forall key value,
     In (key, value) (map (OptionsFlow.shown_default self) defaults) ->
     OptionsFlow.get key (OptionsFlow.config_entry_options self') = Some value) ->
  map (OptionsFlow.shown_default self') defaults
  = map (OptionsFlow.shown_default self) defaults.
Proof.
  intros Hstored. apply map_ext_in. intros item Hitem.
  pose proof (Hstored _ _ (in_map (OptionsFlow.shown_default self) _ _ Hitem))
    as Hget.
  unfold OptionsFlow.shown_default in *. cbn [fst snd] in *.
  now rewrite Hget.
Qed.

(** X3. With three different names for the three options: when the form
    of the options is submitted as it was shown, every option that the
    config entry had stored keeps its value in the entry that is created,
    and an options flow that is started on the created options shows the
    same form again. *)
Theorem form_submitted_as_shown_changes_nothing (stored : OptionsFlow.dict) :
  NoDup [CONF_ALLOW_CLIP_SENSOR; CONF_ALLOW_DECONZ_GROUPS;
         CONF_ALLOW_NEW_DEVICES] ->
  exists shown data self',
    OptionsFlow.async_step_init
      CONF_ALLOW_CLIP_SENSOR CONF_ALLOW_DECONZ_GROUPS CONF_ALLOW_NEW_DEVICES
      DEFAULT_ALLOW_CLIP_SENSOR DEFAULT_ALLOW_DECONZ_GROUPS
      DEFAULT_ALLOW_NEW_DEVICES None (OptionsFlow.async_get_options_flow stored)
    = (OptionsFlow.OPTIONS_FORM "deconz_devices" shown,
       OptionsFlow.async_get_options_flow stored)
    /\ map fst shown = [CONF_ALLOW_CLIP_SENSOR; CONF_ALLOW_DECONZ_GROUPS;
                        CONF_ALLOW_NEW_DEVICES]
    /\ OptionsFlow.async_step_deconz_devices
      CONF_ALLOW_CLIP_SENSOR CONF_ALLOW_DECONZ_GROUPS CONF_ALLOW_NEW_DEVICES
      DEFAULT_ALLOW_CLIP_SENSOR DEFAULT_ALLOW_DECONZ_GROUPS
      DEFAULT_ALLOW_NEW_DEVICES
      (Some shown) (OptionsFlow.async_get_options_flow stored)
       = (OptionsFlow.OPTIONS_CREATE_ENTRY EmptyString data, self')
    /\ (forall key value,
          OptionsFlow.get key stored = Some value ->
          OptionsFlow.get key data = Some value)
    /\ OptionsFlow.async_step_init
      CONF_ALLOW_CLIP_SENSOR CONF_ALLOW_DECONZ_GROUPS CONF_ALLOW_NEW_DEVICES
      DEFAULT_ALLOW_CLIP_SENSOR DEFAULT_ALLOW_DECONZ_GROUPS
      DEFAULT_ALLOW_NEW_DEVICES None (OptionsFlow.async_get_options_flow data)
       = (OptionsFlow.OPTIONS_FORM "deconz_devices" shown,
          OptionsFlow.async_get_options_flow data).
Proof.
  intros Hnodup.
  eexists _, _, _. split; [reflexivity|]. split; [reflexivity|].
  split; [reflexivity|]. cbn [OptionsFlow.options].
  set (self := OptionsFlow.async_get_options_flow stored).
  set (shown := map (OptionsFlow.shown_default self) _).
  split.
  - intros key value Hstored. apply get_update_same; [exact Hstored|].
    intros x Hin.
    exact (shown_default_of_stored self _ key value x Hstored Hin).
  - unfold OptionsFlow.async_step_init, OptionsFlow.async_step_deconz_devices.
    f_equal. f_equal. apply shown_again.
    intros key value Hin. apply get_update_present; [exact Hnodup|exact Hin].
Qed.

End OptionsFacts.

(** ** The user step and the manual input *)

Lemma find_first_of_host (found : list DiscoveredBridge) (chosen : string) :
  In chosen (map br_host found) ->
  exists bridge before after,
    found = before ++ bridge :: after
    /\ (forall b, In b before -> br_host b <> chosen)
    /\ br_host bridge = chosen
    /\ find (fun b => String.eqb (br_host b) chosen) found = Some bridge.
Proof.
  induction found as [|b found IH]; cbn; [intros []|].
  destruct (String.eqb (br_host b) chosen) eqn:Hb.
  - intros _. exists b, [], found. apply String.eqb_eq in Hb.
    split; [reflexivity|]. split; [intros ? []|]. split; [exact Hb|reflexivity].
  - intros [Hhere | Hlater].
    + apply String.eqb_neq in Hb. contradiction.
    + destruct (IH Hlater) as (bridge & before & after & -> & Hnone & Hhost & Hfind).
      exists bridge, (b :: before), after.
      split; [reflexivity|]. split; [|split; [exact Hhost|exact Hfind]].
      intros b' [<- | Hin]; [now apply String.eqb_neq|auto].
Qed.

Lemma find_no_bridge_of_host (known : list DiscoveredBridge) (chosen : string) :
  ~ In chosen (map br_host known) ->
  find (fun b => String.eqb (br_host b) chosen) known = None.
Proof.
  induction known as [|b known IH]; cbn; intros Hnot; [reflexivity|].
  destruct (String.eqb (br_host b) chosen) eqn:Hb.
  - apply String.eqb_eq in Hb. exfalso. apply Hnot. now left.
  - apply IH. intros Hin. apply Hnot. now right.
Qed.

(** X4. When discovery finds bridges, the user step shows the form with
    the hosts of the bridges, in the order found, and the manual entry
    after them. Each entry of this form, once submitted, is answered by a
    form and by no further call: the manual entry by the form of the manual
    input, and a host by the link form, with identity, host and port of the
    first bridge found at this host. *)
Theorem every_offered_host_can_be_picked (env : Env) (f : DeconzFlowHandler)
    (w : World) (found : list DiscoveredBridge) :
  discovery_outcome env = DiscoveryOk found ->
  found <> [] ->
  async_step_user None env f w
  = (Returned (FORM "user" (map br_host found ++ [CONF_MANUAL_INPUT]) [] []),
     with_bridges found f, with_call deconz_discovery w)
  /\ forall chosen next,
       In chosen (map br_host found ++ [CONF_MANUAL_INPUT]) ->
       let f1 := with_bridges found f in
       let w1 := with_call deconz_discovery w in
       (chosen = CONF_MANUAL_INPUT
        /\ async_step_user (Some (Some chosen)) next f1 w1
           = (Returned (FORM "manual_input" [] [] []), f1, w1))
       \/ (exists bridge before after,
             found = before ++ bridge :: after
             /\ (forall b, In b before -> br_host b <> chosen)
             /\ br_host bridge = chosen
             /\ async_step_user (Some (Some chosen)) next f1 w1
                = (Returned (FORM "link" [] [] []),
                   with_port (br_port bridge)
                     (with_host chosen (with_bridge_id (br_id bridge) f1)),
                   w1)).
Proof.
  intros Hfound Hsome. split.
  - unfold_flow. cbn. rewrite Hfound.
    destruct found as [|b found]; [contradiction|reflexivity].
  - intros chosen next Hin f1 w1.
    destruct (String.eqb chosen CONF_MANUAL_INPUT) eqn:Hmanual.
    + left. apply String.eqb_eq in Hmanual. subst chosen. split; reflexivity.
    + right. apply in_app_or in Hin. destruct Hin as [Hin | [<- | []]].
      * destruct (find_first_of_host found chosen Hin)
          as (bridge & before & after & Hsplit & Hnone & Hhost & Hfind).
        exists bridge, before, after. repeat split; auto.
        unfold async_step_user. rewrite Hmanual.
        unfold self_bridges, read_assigned, bind. cbn [bridges f1 with_bridges].
        rewrite Hfind. subst chosen. reflexivity.
      * now rewrite String.eqb_refl in Hmanual.
Qed.

(** X5. A submitted host that is neither the manual entry nor the host of
    a bridge known to the handler is answered like the start of the flow:
    discovery runs again. *)
Theorem unknown_host_discovers_again (env : Env) (f : DeconzFlowHandler)
    (w : World) (known : list DiscoveredBridge) (chosen : string) :
  bridges f = Some known ->
  chosen <> CONF_MANUAL_INPUT ->
  ~ In chosen (map br_host known) ->
  async_step_user (Some (Some chosen)) env f w = async_step_user None env f w
  /\ exists made,
       calls (world_after (async_step_user (Some (Some chosen)) env f w))
       = calls w ++ deconz_discovery :: made.
Proof.
  intros Hknown Hmanual Hnot.
  apply String.eqb_neq in Hmanual.
  assert (Hsame : async_step_user (Some (Some chosen)) env f w
                  = async_step_user None env f w).
  { unfold async_step_user, self_bridges, read_assigned, bind.
    now rewrite Hmanual, Hknown, (find_no_bridge_of_host known chosen Hnot). }
  split; [exact Hsame|]. rewrite Hsame.
  unfold world_after. unfold_flow. cbn.
  destruct (discovery_outcome env) as [[|b found]| | |]; cbn;
    exists []; reflexivity.
Qed.

(** ** The link step *)

(** X6. Whatever it is given, the link step talks to no other address than
    the host and port of the handler: every call it makes is the request for
    a key or the request for the identity at this host and port, discovery
    is never called, and a handler whose host or port is not assigned makes
    no call at all. *)
Theorem link_step_calls_own_address_only (user_input : option unit) (env : Env)
    (f : DeconzFlowHandler) (w : World) :
  exists made,
    calls (world_after (async_step_link user_input env f w)) = calls w ++ made
    /\ forall c,
         In c made ->
         exists h p,
           host f = Some h /\ port f = Some p
           /\ (c = get_api_key h p \/ exists k, c = deconz_get_bridge_id h p k).
Proof.
  unfold world_after. unfold_flow. cbn.
  case_on_matches.
  all: try (exists []; split; [now rewrite app_nil_r|intros c []]).
  all: eexists; rewrite <- ?app_assoc; (split; [reflexivity|]).
  all: cbn; intros c Hc;
    repeat match goal with
           | H : _ \/ _ |- _ => destruct H
           | H : False |- _ => destruct H
           end; subst c;
    repeat match goal with
           | H : Some _ = Some _ |- _ => injection H as H; subst
           end;
    eexists _, _; eauto.
Qed.

(** X7. When the handler knows the identity of the bridge already, a
    negotiation that hands out a key ends the link step with the result that
    creates the entry: title is the identity, data are host, port and the
    new key. The request for the key is the only call, the bridge is not
    asked for its identity, and no stored entry is looked up or changed. *)
Theorem link_with_known_identity_creates_entry (env : Env)
    (f : DeconzFlowHandler) (w : World) (h : string) (p : Z) (key : string) :
  is_empty (bridge_id f) = false ->
  host f = Some h ->
  port f = Some p ->
  get_api_key_outcome env = ApiKeyOk key ->
  async_step_link (Some tt) env f w
  = (Returned (CREATE_ENTRY (bridge_id f)
                 {| conf_host := h; conf_port := p; conf_api_key := key |}),
     with_api_key key f, with_call (get_api_key h p) w).
Proof.
  intros Hid Hh Hp Hkey.
  rewrite (link_success_commits env f w h p key Hh Hp Hkey).
  exact (commit_of_known_identity_creates env (with_api_key key f)
           (with_call (get_api_key h p) w) h p key Hid Hh Hp eq_refl).
Qed.

(** X8. The host and port submitted in the form of the manual input are
    assigned to the handler without any call, the identity stays as it was,
    and the link form is shown; the negotiation that follows goes to exactly
    this host and port. *)
Theorem manual_input_is_where_the_link_goes (input : ManualInput)
    (env next : Env) (f : DeconzFlowHandler) (w : World) :
  let f1 := with_port (manual_port input) (with_host (manual_host input) f) in
  async_step_manual_input (Some input) env f w
  = (Returned (FORM "link" [] [] []), f1, w)
  /\ bridge_id f1 = bridge_id f
  /\ exists made,
       calls (world_after (async_step_link (Some tt) next f1 w))
       = calls w ++ get_api_key (manual_host input) (manual_port input) :: made.
Proof.
  intros f1. split; [reflexivity|]. split; [reflexivity|].
  unfold world_after.
  rewrite (async_step_link_outcomes next f1 w (manual_host input)
             (manual_port input) eq_refl eq_refl).
  destruct (get_api_key_outcome next) as [key| | | |];
    try (exists []; reflexivity).
  destruct (create_entry_after_call next (with_api_key key f1) w
              (get_api_key (manual_host input) (manual_port input)))
    as (made & _ & Hcalls & _).
  exists made. rewrite Hcalls. now rewrite <- app_assoc.
Qed.

(** ** The announcements *)

Section AnnouncementFlows.

Variable normalize_bridge_id : string -> string.

(** X9. The flow of a host platform announcement never calls the bridge or
    the discovery: the announcement step makes no call, whatever is stored.
    For an identity without a record, and a normalized serial that is not
    empty, the step shows the confirmation form with the name of the add-on,
    and the confirmation returns the result that creates the entry, with the
    normalized serial as title and the announced host, port and key, again
    without a call. *)
Theorem hassio_flow_makes_no_call (config : HassioConfig) (env : Env)
    (f : DeconzFlowHandler) (w : World) :
  calls (world_after (async_step_hassio normalize_bridge_id config env f w))
  = calls w
  /\ (find (unique_id_is (normalize_bridge_id (hassio_serial config)))
        (config_entries w) = None ->
      is_empty (normalize_bridge_id (hassio_serial config)) = false ->
      exists f1,
        async_step_hassio normalize_bridge_id config env f w
        = (Returned (FORM "hassio_confirm" [] [] [("addon", hassio_addon config)]),
           f1, w)
        /\ forall next,
             async_step_hassio_confirm (Some tt) next f1 w
             = (Returned
                  (CREATE_ENTRY (normalize_bridge_id (hassio_serial config))
                     {| conf_host := hassio_host config;
                        conf_port := hassio_port config;
                        conf_api_key := hassio_api_key config |}),
                f1, w)).
Proof.
  split.
  - unfold world_after, async_step_hassio. unfold_flow. cbn.
    case_on_matches; reflexivity.
  - intros Hfind Hserial.
    pose proof (async_update_entry_missing _
                  {| upd_host := Some (hassio_host config);
                     upd_port := Some (hassio_port config);
                     upd_api_key := Some (hassio_api_key config) |} _ Hfind)
      as Hmissing.
    eexists. split.
    + unfold async_step_hassio. unfold_flow. cbn. rewrite Hmissing. reflexivity.
    + intros next. unfold_flow. cbn. rewrite Hserial. reflexivity.
Qed.

(** X10. A network announcement for an identity whose record did not come
    from the host platform ends the flow as already_configured after host
    and port of this record were replaced by the announced ones: the key of
    the record and all other entries stay as they were, and no call is
    made. *)
Theorem ssdp_moves_record_and_keeps_key (info : SsdpServiceInfo) (env : Env)
    (f : DeconzFlowHandler) (w : World) (found : ConfigEntry) :
  find (unique_id_is (normalize_bridge_id (upnp_serial info))) (config_entries w)
  = Some found ->
  entry_source found <> SOURCE_HASSIO ->
  exists before after f',
    config_entries w = before ++ found :: after
    /\ manage (async_step_ssdp normalize_bridge_id info env) f w
       = (Returned (ABORT "already_configured"), f',
          {| config_entries :=
               before
               ++ {| entry_unique_id := entry_unique_id found;
                     entry_source := entry_source found;
                     entry_title := entry_title found;
                     entry_data :=
                       {| conf_host := location_hostname info;
                          conf_port := location_port info;
                          conf_api_key := conf_api_key (entry_data found) |} |}
               :: after;
             calls := calls w |}).
Proof.
  intros Hfind Hsource.
  destruct (find_split _ _ _ Hfind) as (before & after & Hsplit & Hnone & Hfound).
  exists before, after. eexists. split; [exact Hsplit|].
  unfold async_step_ssdp. unfold_flow. cbn. rewrite Hfind.
  assert (Hnot : source_eqb (entry_source found) SOURCE_HASSIO = false)
    by (destruct (entry_source found); try reflexivity; contradiction).
  rewrite Hnot. cbn. rewrite Hsplit.
  rewrite (async_update_entry_first _ _ before found after Hnone Hfound).
  reflexivity.
Qed.

(** X11. A network announcement for an identity without a record, and with
    a normalized serial that is not empty, shows the link form without a
    call, the handler holding the announced host and port and the normalized
    serial as identity. A negotiation that then hands out a key ends with
    the result that creates the entry under this identity; the request for
    the key is the only call of the whole flow. *)
Theorem ssdp_flow_needs_no_identity_call (info : SsdpServiceInfo)
    (env next : Env) (f : DeconzFlowHandler) (w : World) (key : string) :
  find (unique_id_is (normalize_bridge_id (upnp_serial info))) (config_entries w)
  = None ->
  is_empty (normalize_bridge_id (upnp_serial info)) = false ->
  get_api_key_outcome next = ApiKeyOk key ->
  exists f1,
    async_step_ssdp normalize_bridge_id info env f w
    = (Returned (FORM "link" [] [] []), f1, w)
    /\ bridge_id f1 = normalize_bridge_id (upnp_serial info)
    /\ configuration_url (context f1)
       = Some (BridgeUrl (location_hostname info) (location_port info))
    /\ async_step_link (Some tt) next f1 w
       = (Returned
            (CREATE_ENTRY (normalize_bridge_id (upnp_serial info))
               {| conf_host := location_hostname info;
                  conf_port := location_port info;
                  conf_api_key := key |}),
          with_api_key key f1,
          with_call (get_api_key (location_hostname info) (location_port info)) w).
Proof.
  intros Hfind Hserial Hkey.
  pose proof (async_update_entry_missing _
                {| upd_host := Some (location_hostname info);
                   upd_port := Some (location_port info);
                   upd_api_key := None |} _ Hfind) as Hmissing.
  set (uid := normalize_bridge_id (upnp_serial info)) in *.
  set (h := location_hostname info) in *. set (p := location_port info) in *.
  set (f1 := with_context (ctx_configuration_url (BridgeUrl h p))
               (with_context (ctx_title_placeholders ("host", h))
                  (with_port p
                     (with_host h
                        (with_context (ctx_unique_id (Some uid))
                           (with_bridge_id uid f)))))).
  exists f1. split.
  - unfold async_step_ssdp. unfold_flow. cbn. fold uid. rewrite Hfind. cbn.
    fold h p uid. rewrite Hmissing. reflexivity.
  - split; [reflexivity|]. split; [reflexivity|].
    rewrite (link_success_commits next f1 w h p key eq_refl eq_refl Hkey).
    exact (commit_of_known_identity_creates next (with_api_key key f1)
             (with_call (get_api_key h p) w) h p key Hserial
             eq_refl eq_refl eq_refl).
Qed.

(** What a step leaves in the store and in the handler, by its result. *)
Lemma call_step_by_result (s : Step) (env : Env) (f : DeconzFlowHandler)
    (w : World) :
  match call_step normalize_bridge_id s env f w with
  | (Returned (FORM _ _ _ _), _, w') => config_entries w' = config_entries w
  | (Returned (CREATE_ENTRY title data), f', w') =>
      config_entries w' = config_entries w
      /\ bridge_id f' = title
      /\ host f' = Some (conf_host data)
      /\ port f' = Some (conf_port data)
      /\ api_key f' = Some (conf_api_key data)
      /\ (s = step_link (Some tt) \/ s = step_hassio_confirm (Some tt))
  | _ => True
  end.
Proof.
  destruct s as [[[chosen|]|]|[input|]|[[]|]|data|info|config|[[]|]];
    unfold call_step, async_step_ssdp, async_step_hassio; unfold_flow; cbn;
    case_on_matches; auto 10.
Qed.

(** X12. A step that answers with a form has stored nothing: whichever
    step it is and whatever it was given, the entries are those from before
    the step. *)
Theorem form_means_nothing_stored (s : Step) (env : Env)
    (f f' : DeconzFlowHandler) (w w' : World) (step_id : string)
    (hosts : list string) (errors placeholders : list (string * string)) :
  call_step normalize_bridge_id s env f w
  = (Returned (FORM step_id hosts errors placeholders), f', w') ->
  config_entries w' = config_entries w.
Proof.
  intros Hstep.
  pose proof (call_step_by_result s env f w) as Hresult.
  now rewrite Hstep in Hresult.
Qed.

(** X13. A step returns the result that creates an entry only as the link
    step or the confirmation step of the host platform, and only when given
    an input; title and data of the result are then the identity, host, port
    and key the handler holds, and the step itself has changed no stored
    entry. *)
Theorem create_entry_is_what_the_handler_holds (s : Step) (env : Env)
    (f f' : DeconzFlowHandler) (w w' : World) (title : string) (data : ConfData) :
  call_step normalize_bridge_id s env f w
  = (Returned (CREATE_ENTRY title data), f', w') ->
  (s = step_link (Some tt) \/ s = step_hassio_confirm (Some tt))
  /\ bridge_id f' = title
  /\ host f' = Some (conf_host data)
  /\ port f' = Some (conf_port data)
  /\ api_key f' = Some (conf_api_key data)
  /\ config_entries w' = config_entries w.
Proof.
  intros Hstep.
  pose proof (call_step_by_result s env f w) as Hresult.
  rewrite Hstep in Hresult. tauto.
Qed.

End AnnouncementFlows.

(** X14. In a flow of re-authentication for the entry of a bridge, once the
    negotiation hands out a key and the bridge reports the identity under
    which the entry is stored, the flow ends as already_configured and the
    entry holds the new key: its host, port, title, source and unique id are
    those from before, and so are the other entries. *)
Theorem reauth_replaces_the_key_in_place (ctx : FlowContext) (env next : Env)
    (w : World) (found : ConfigEntry) (key id : string) :
  find (unique_id_is id) (config_entries w) = Some found ->
  get_api_key_outcome next = ApiKeyOk key ->
  get_bridge_id_outcome next = BridgeIdOk id ->
  let started := async_step_reauth (entry_data found) env (__init__ ctx) w in
  exists before after f',
    config_entries w = before ++ found :: after
    /\ fst (fst started) = Returned (FORM "link" [] [] [])
    /\ manage (async_step_link (Some tt) next)
         (handler_after started) (world_after started)
       = (Returned (ABORT "already_configured"), f',
          {| config_entries :=
               before
               ++ {| entry_unique_id := entry_unique_id found;
                     entry_source := entry_source found;
                     entry_title := entry_title found;
                     entry_data :=
                       {| conf_host := conf_host (entry_data found);
                          conf_port := conf_port (entry_data found);
                          conf_api_key := key |} |}
               :: after;
             calls :=
               calls w
               ++ [ get_api_key (conf_host (entry_data found))
                      (conf_port (entry_data found));
                    deconz_get_bridge_id (conf_host (entry_data found))
                      (conf_port (entry_data found)) key ] |}).
Proof.
  intros Hfind Hkey Hid started.
  set (f1 := handler_after started).
  destruct (commit_updates_record_of_resolved_identity next
              (with_api_key key f1)
              (with_call (get_api_key (conf_host (entry_data found))
                            (conf_port (entry_data found))) w)
              (conf_host (entry_data found)) (conf_port (entry_data found))
              key id found eq_refl eq_refl eq_refl eq_refl Hid Hfind)
    as (before & after & Hsplit & _ & Hcommit).
  exists before, after. eexists. split; [exact Hsplit|]. split; [reflexivity|].
  change (world_after started) with w.
  assert (Hlink : manage (async_step_link (Some tt) next) f1 w
                  = manage (_create_entry next) (with_api_key key f1)
                      (with_call (get_api_key (conf_host (entry_data found))
                                    (conf_port (entry_data found))) w)).
  { unfold manage.
    now rewrite (link_success_commits next f1 w
                   (conf_host (entry_data found)) (conf_port (entry_data found))
                   key eq_refl eq_refl Hkey). }
  rewrite Hlink, Hcommit. cbn [calls with_call].
  rewrite <- app_assoc. reflexivity.
Qed.

(** ** The identity under which a flow is registered *)

(** X15. No step registers the flow under another identity than the one
    the handler holds: after any step, the unique id of the flow is the one
    from before the step, or it is the [bridge_id] of the handler. *)
Theorem unique_id_is_the_bridge_id (normalize_bridge_id : string -> string)
    (s : Step) (env : Env) (f : DeconzFlowHandler) (w : World) :
  let f' := handler_after (call_step normalize_bridge_id s env f w) in
  unique_id (context f') = unique_id (context f)
  \/ unique_id (context f') = Some (bridge_id f').
Proof.
  unfold handler_after.
  destruct s as [[[chosen|]|]|[input|]|[[]|]|data|info|config|[[]|]];
    unfold call_step, async_step_ssdp, async_step_hassio; unfold_flow; cbn;
    case_on_matches; auto.
Qed.

(** X16. When the handler does not know the identity of the bridge, a
    negotiation that hands out a key is followed by the request for the
    identity, with this key; when no entry is stored under the reported
    identity, the link step ends with the result that creates the entry,
    with the reported identity as title and as unique id of the flow, and
    the stored entries are not changed by the step. *)
Theorem link_with_unknown_identity_asks_and_creates (env : Env)
    (f : DeconzFlowHandler) (w : World) (h : string) (p : Z) (key id : string) :
  bridge_id f = EmptyString ->
  host f = Some h ->
  port f = Some p ->
  get_api_key_outcome env = ApiKeyOk key ->
  get_bridge_id_outcome env = BridgeIdOk id ->
  find (unique_id_is id) (config_entries w) = None ->
  async_step_link (Some tt) env f w
  = (Returned (CREATE_ENTRY id
                 {| conf_host := h; conf_port := p; conf_api_key := key |}),
     with_context (ctx_unique_id (Some id))
       (with_bridge_id id (with_api_key key f)),
     {| config_entries := config_entries w;
        calls := calls w ++ [get_api_key h p; deconz_get_bridge_id h p key] |}).
Proof.
  intros Hid Hh Hp Hkey Hreported Hfind.
  rewrite (link_success_commits env f w h p key Hh Hp Hkey).
  pose proof (async_update_entry_missing id
                {| upd_host := Some h; upd_port := Some p;
                   upd_api_key := Some key |} _ Hfind) as Hmissing.
  unfold_flow. cbn. rewrite Hid. cbn.
  repeat progress (rewrite ?Hh, ?Hp, ?Hreported, ?Hmissing; cbn).
  unfold with_call. cbn. now rewrite <- app_assoc.
Qed.

(** ** The further properties at the examples *)

Lemma options_merged_example :
  exists data self',
    OptionsFlow.async_step_deconz_devices
      "allow_clip_sensor" "allow_deconz_groups" "allow_new_devices"
      false true true (Some [("allow_clip_sensor", false)])
      (OptionsFlow.async_get_options_flow Example.stored_options)
    = (OptionsFlow.OPTIONS_CREATE_ENTRY EmptyString data, self')
    /\ OptionsFlow.get "master" data = Some true
    /\ OptionsFlow.get "allow_clip_sensor" data = Some false.
Proof.
  destruct (submitted_options_are_merged
              "allow_clip_sensor" "allow_deconz_groups" "allow_new_devices"
              false true true
              (OptionsFlow.async_get_options_flow Example.stored_options)
              [("allow_clip_sensor", false)])
    as (data & self' & Hstep & _ & _ & Hkept & Hset).
  exists data, self'. split; [exact Hstep|]. split.
  - rewrite (Hkept "master" eq_refl). reflexivity.
  - apply Hset; [|now left].
    constructor; [intros []|constructor].
Defined.

Lemma options_form_as_shown_example :
  exists shown data self',
    OptionsFlow.async_step_init
      "allow_clip_sensor" "allow_deconz_groups" "allow_new_devices"
      false true true None
      (OptionsFlow.async_get_options_flow Example.stored_options)
    = (OptionsFlow.OPTIONS_FORM "deconz_devices" shown,
       OptionsFlow.async_get_options_flow Example.stored_options)
    /\ OptionsFlow.async_step_deconz_devices
         "allow_clip_sensor" "allow_deconz_groups" "allow_new_devices"
         false true true (Some shown)
         (OptionsFlow.async_get_options_flow Example.stored_options)
       = (OptionsFlow.OPTIONS_CREATE_ENTRY EmptyString data, self')
    /\ OptionsFlow.get "master" data = Some true.
Proof.
  destruct (form_submitted_as_shown_changes_nothing
              "allow_clip_sensor" "allow_deconz_groups" "allow_new_devices"
              false true true Example.stored_options)
    as (shown & data & self' & Hform & _ & Hstep & Hkept & _).
  - repeat constructor; cbn; intros H;
      repeat (destruct H as [H | H]; [discriminate H|]); exact H.
  - exists shown, data, self'. split; [exact Hform|]. split; [exact Hstep|].
    exact (Hkept "master" true eq_refl).
Defined.

Lemma offered_hosts_example :
  async_step_user None
    (Example.all_well [Example.raw_bridge] "NEWKEY" "001122ff")
    (__init__ (start_context SOURCE_USER)) (Example.world_of [])
  = (Returned (FORM "user" ["10.0.0.9"; CONF_MANUAL_INPUT] [] []),
     Example.at_choice Example.raw_bridge,
     with_call deconz_discovery (Example.world_of [])).
Proof.
  refine (proj1 (every_offered_host_can_be_picked
                   (Example.all_well [Example.raw_bridge] "NEWKEY" "001122ff")
                   (__init__ (start_context SOURCE_USER)) (Example.world_of [])
                   [Example.raw_bridge] eq_refl _)).
  discriminate.
Defined.

Lemma unknown_host_example :
  async_step_user (Some (Some "10.0.0.1")) Example.all_timeout
    (Example.at_choice Example.raw_bridge) (Example.world_of [])
  = async_step_user None Example.all_timeout
      (Example.at_choice Example.raw_bridge) (Example.world_of []).
Proof.
  refine (proj1 (unknown_host_discovers_again Example.all_timeout
                   (Example.at_choice Example.raw_bridge) (Example.world_of [])
                   [Example.raw_bridge] "10.0.0.1" eq_refl _ _)).
  - discriminate.
  - intros [H | []]. discriminate H.
Defined.

Lemma link_calls_example :
  exists made,
    calls (world_after
             (async_step_link (Some tt) Example.not_pressed Example.at_link
                (Example.world_of [])))
    = made
    /\ forall c, In c made -> c = get_api_key "10.0.0.5" 80%Z.
Proof.
  destruct (link_step_calls_own_address_only (Some tt) Example.not_pressed
              Example.at_link (Example.world_of []))
    as (made & Hcalls & Hown).
  exists made. split; [exact Hcalls|].
  intros c Hc. destruct (Hown c Hc) as (h & p & Hh & Hp & Hcall).
  injection Hh as <-. injection Hp as <-.
  destruct Hcall as [Hcall | [k Hcall]]; [exact Hcall|].
  exfalso. cbn in Hcalls. subst made.
  destruct Hc as [Hc | []]. rewrite <- Hc in Hcall. discriminate Hcall.
Defined.

Lemma link_with_known_identity_example :
  async_step_link (Some tt) (Example.all_well [] "NEWKEY" "001122ff")
    Example.at_link_known (Example.world_of [Example.paired])
  = (Returned (CREATE_ENTRY "001122ff"
                 {| conf_host := "10.0.0.5"; conf_port := 80%Z;
                    conf_api_key := "NEWKEY" |}),
     with_api_key "NEWKEY" Example.at_link_known,
     with_call (get_api_key "10.0.0.5" 80%Z) (Example.world_of [Example.paired])).
Proof.
  exact (link_with_known_identity_creates_entry
           (Example.all_well [] "NEWKEY" "001122ff") Example.at_link_known
           (Example.world_of [Example.paired]) "10.0.0.5" 80%Z "NEWKEY"
           eq_refl eq_refl eq_refl eq_refl).
Defined.

Lemma hassio_flow_example :
  exists f1,
    async_step_hassio normalize_bridge_id_spec Example.hassio_moved
      Example.all_timeout (__init__ (start_context SOURCE_HASSIO))
      (Example.world_of [])
    = (Returned (FORM "hassio_confirm" [] [] [("addon", "deCONZ")]),
       f1, Example.world_of [])
    /\ async_step_hassio_confirm (Some tt) Example.all_timeout f1
         (Example.world_of [])
       = (Returned (CREATE_ENTRY "001122ff"
                      {| conf_host := "core-deconz"; conf_port := 40850%Z;
                         conf_api_key := "NEWKEY" |}),
          f1, Example.world_of []).
Proof.
  destruct (proj2 (hassio_flow_makes_no_call normalize_bridge_id_spec
                     Example.hassio_moved Example.all_timeout
                     (__init__ (start_context SOURCE_HASSIO))
                     (Example.world_of []))
              eq_refl eq_refl) as (f1 & Hstep & Hconfirm).
  exists f1. split; [exact Hstep|exact (Hconfirm Example.all_timeout)].
Defined.

Lemma ssdp_moves_record_example :
  exists f',
    manage (async_step_ssdp normalize_bridge_id_spec Example.ssdp_moved
              Example.all_timeout)
      (__init__ (start_context SOURCE_SSDP)) (Example.world_of [Example.paired])
    = (Returned (ABORT "already_configured"), f',
       Example.world_of
         [ {| entry_unique_id := Some "001122ff"; entry_source := SOURCE_USER;
              entry_title := "001122ff";
              entry_data := {| conf_host := "10.0.0.9"; conf_port := 8080%Z;
                               conf_api_key := "ABC123" |} |} ]).
Proof.
  destruct (ssdp_moves_record_and_keeps_key normalize_bridge_id_spec
              Example.ssdp_moved Example.all_timeout
              (__init__ (start_context SOURCE_SSDP))
              (Example.world_of [Example.paired]) Example.paired eq_refl)
    as (before & after & f' & Hsplit & Hstep).
  - discriminate.
  - exists f'. rewrite Hstep.
    destruct before as [|b before].
    + cbn in Hsplit. injection Hsplit as <-. reflexivity.
    + cbn in Hsplit. injection Hsplit as _ Hsplit.
      destruct before; discriminate Hsplit.
Defined.

Lemma ssdp_flow_example :
  exists f1,
    async_step_ssdp normalize_bridge_id_spec Example.ssdp_moved
      Example.all_timeout (__init__ (start_context SOURCE_SSDP))
      (Example.world_of [])
    = (Returned (FORM "link" [] [] []), f1, Example.world_of [])
    /\ async_step_link (Some tt) (Example.all_well [] "NEWKEY" "001122ff") f1
         (Example.world_of [])
       = (Returned (CREATE_ENTRY "001122ff"
                      {| conf_host := "10.0.0.9"; conf_port := 8080%Z;
                         conf_api_key := "NEWKEY" |}),
          with_api_key "NEWKEY" f1,
          with_call (get_api_key "10.0.0.9" 8080%Z) (Example.world_of [])).
Proof.
  destruct (ssdp_flow_needs_no_identity_call normalize_bridge_id_spec
              Example.ssdp_moved Example.all_timeout
              (Example.all_well [] "NEWKEY" "001122ff")
              (__init__ (start_context SOURCE_SSDP)) (Example.world_of [])
              "NEWKEY" eq_refl eq_refl eq_refl)
    as (f1 & Hstep & _ & _ & Hlink).
  exists f1. split; [exact Hstep|exact Hlink].
Defined.

Lemma form_stores_nothing_example :
  config_entries (with_call deconz_discovery (Example.world_of [Example.paired]))
  = [Example.paired].
Proof.
  exact (form_means_nothing_stored normalize_bridge_id_spec (step_user None)
           Example.all_timeout (__init__ (start_context SOURCE_USER))
           (with_bridges [] (__init__ (start_context SOURCE_USER)))
           (Example.world_of [Example.paired])
           (with_call deconz_discovery (Example.world_of [Example.paired]))
           "manual_input" [] [] [] eq_refl).
Defined.

Lemma created_entry_example :
  (step_link (Some tt) = step_link (Some tt)
   \/ step_link (Some tt) = step_hassio_confirm (Some tt))
  /\ bridge_id (with_api_key "NEWKEY" Example.at_link_known) = "001122ff"
  /\ host (with_api_key "NEWKEY" Example.at_link_known) = Some "10.0.0.5"
  /\ port (with_api_key "NEWKEY" Example.at_link_known) = Some 80%Z
  /\ api_key (with_api_key "NEWKEY" Example.at_link_known) = Some "NEWKEY"
  /\ config_entries
       (with_call (get_api_key "10.0.0.5" 80%Z) (Example.world_of [Example.paired]))
     = [Example.paired].
Proof.
  exact (create_entry_is_what_the_handler_holds normalize_bridge_id_spec
           (step_link (Some tt)) (Example.all_well [] "NEWKEY" "001122ff")
           Example.at_link_known (with_api_key "NEWKEY" Example.at_link_known)
           (Example.world_of [Example.paired])
           (with_call (get_api_key "10.0.0.5" 80%Z)
              (Example.world_of [Example.paired]))
           "001122ff"
           {| conf_host := "10.0.0.5"; conf_port := 80%Z;
              conf_api_key := "NEWKEY" |}
           eq_refl).
Defined.

Lemma reauth_new_key_example :
  exists f',
    manage (async_step_link (Some tt) (Example.all_well [] "NEWKEY" "001122ff"))
      (handler_after
         (async_step_reauth (entry_data Example.paired) Example.all_timeout
            (__init__ (start_context SOURCE_REAUTH))
            (Example.world_of [Example.paired])))
      (Example.world_of [Example.paired])
    = (Returned (ABORT "already_configured"), f',
       {| config_entries :=
            [ {| entry_unique_id := Some "001122ff"; entry_source := SOURCE_USER;
                 entry_title := "001122ff";
                 entry_data := {| conf_host := "10.0.0.5"; conf_port := 80%Z;
                                  conf_api_key := "NEWKEY" |} |} ];
          calls := [ get_api_key "10.0.0.5" 80%Z;
                     deconz_get_bridge_id "10.0.0.5" 80%Z "NEWKEY" ] |}).
Proof.
  destruct (reauth_replaces_the_key_in_place (start_context SOURCE_REAUTH)
              Example.all_timeout (Example.all_well [] "NEWKEY" "001122ff")
              (Example.world_of [Example.paired]) Example.paired
              "NEWKEY" "001122ff" eq_refl eq_refl eq_refl)
    as (before & after & f' & Hsplit & _ & Hlink).
  exists f'. unfold world_after in Hlink. cbn [snd] in Hlink.
  change (snd (async_step_reauth (entry_data Example.paired) Example.all_timeout
                 (__init__ (start_context SOURCE_REAUTH))
                 (Example.world_of [Example.paired])))
    with (Example.world_of [Example.paired]) in Hlink.
  rewrite Hlink.
  destruct before as [|b before].
  - cbn in Hsplit. injection Hsplit as <-. reflexivity.
  - cbn in Hsplit. injection Hsplit as _ Hsplit.
    destruct before; discriminate Hsplit.
Defined.

Lemma link_with_unknown_identity_example :
  async_step_link (Some tt) (Example.all_well [] "ABC123" "001122ff")
    Example.at_link (Example.world_of [])
  = (Returned (CREATE_ENTRY "001122ff"
                 {| conf_host := "10.0.0.5"; conf_port := 80%Z;
                    conf_api_key := "ABC123" |}),
     with_context (ctx_unique_id (Some "001122ff"))
       (with_bridge_id "001122ff" (with_api_key "ABC123" Example.at_link)),
     {| config_entries := [];
        calls := [ get_api_key "10.0.0.5" 80%Z;
                   deconz_get_bridge_id "10.0.0.5" 80%Z "ABC123" ] |}).
Proof.
  exact (link_with_unknown_identity_asks_and_creates
           (Example.all_well [] "ABC123" "001122ff") Example.at_link
           (Example.world_of []) "10.0.0.5" 80%Z "ABC123" "001122ff"
           eq_refl eq_refl eq_refl eq_refl eq_refl eq_refl).
Defined.

